(** * json2yaml: the Three.JS scene converter of gbrt

    A shallow embedding of [src/json2yaml.py] (function
    [convert_json_to_yaml]) and the properties of its node classifier,
    material resolver and camera handling.

    Conventions of the embedding.
    - Python floats are IEEE binary64 numbers: Rocq's primitive [float].
    - A JSON number is an arbitrary-precision integer or a float ([num]);
      [float(v)] is [float_of_num].
    - A Python exception is a value of [exn]; a computation that may raise
      has type [result A].
    - A dictionary read from JSON with a fixed set of keys is a record whose
      fields are options: [None] is an absent key, and reading it raises
      [KeyError].
    - The two indexes [geometries] and [materials] are finite maps from
      uuid to record ([gmap string _]).
    - [math.acos] is the C library's arc cosine behind Python's domain
      check; the C function is a parameter, [libm_acos].
    - [yaml.dump] is the external serializer; the embedding stops at the
      dictionary [yaml_dict] that is handed to it. *)

From Stdlib Require Import ZArith String Ascii List Bool Floats HexString Lia.
From stdpp Require Import gmap strings pretty.
Import ListNotations.

Set Warnings "-inexact-float".
Local Open Scope Z_scope.

(** ** Exceptions and the error monad *)

Inductive exn : Type :=
  | ValueError (msg : string)
  | KeyError (key : string)
  | IndexError (msg : string)
  | OverflowError (msg : string)
  | ZeroDivisionError (msg : string).

Inductive result (A : Type) : Type :=
  | Ok (a : A)
  | Raise (e : exn).
Arguments Ok {A} a.
Arguments Raise {A} e.

Definition bind {A B : Type} (m : result A) (k : A -> result B) : result B :=
  match m with
  | Ok a => k a
  | Raise e => Raise e
  end.

Notation "'let*' x ':=' m 'in' k" :=
  (bind m (fun x => k)) (at level 10, x name, k at level 200).

Definition is_ok {A : Type} (m : result A) : bool :=
  match m with Ok _ => true | Raise _ => false end.

(** [d[key]] on a dictionary whose entry [key] is the option [field]. *)
Definition dict_get {A : Type} (key : string) (field : option A) : result A :=
  match field with
  | Some a => Ok a
  | None => Raise (KeyError key)
  end.

(** [index[key]] on one of the two uuid indexes. *)
Definition index_get {A : Type} (index : gmap string A) (key : string) : result A :=
  match index !! key with
  | Some a => Ok a
  | None => Raise (KeyError key)
  end.

(** [[f(v) for v in l]]: elements are evaluated left to right and the first
    exception aborts the comprehension. *)
Fixpoint list_comp {A B : Type} (f : A -> result B) (l : list A) : result (list B) :=
  match l with
  | [] => Ok []
  | v :: l' =>
      let* w := f v in
      let* ws := list_comp f l' in
      Ok (w :: ws)
  end.

(** [for x in l: s = body(s, x)] with the loop state passed explicitly. *)
Fixpoint for_each {S A : Type} (body : S -> A -> result S) (l : list A) (s : S)
  : result S :=
  match l with
  | [] => Ok s
  | x :: l' =>
      let* s' := body s x in
      for_each body l' s'
  end.

(** [l[i:j]] for constant bounds [0 <= i <= j]: out-of-range bounds are
    clipped, never an error. *)
Definition py_slice {A : Type} (i j : nat) (l : list A) : list A :=
  firstn (j - i) (skipn i l).

(** ** Numbers *)

Inductive num : Type :=
  | NInt (z : Z)
  | NFloat (f : float).

(** [float(z)] for a Python int: the nearest binary64 number, ties to even;
    an int that rounds beyond the largest finite float raises. *)
Definition float_of_Z (z : Z) : result float :=
  match binary_normalize prec emax z 0 false with
  | S754_infinity _ => Raise (OverflowError "int too large to convert to float")
  | sf => Ok (SF2Prim sf)
  end.

Definition float_of_num (v : num) : result float :=
  match v with
  | NInt z => float_of_Z z
  | NFloat f => Ok f
  end.

(** C's [fmod]: the exact remainder of the truncated division, with the sign
    of the dividend. *)
Definition fmod (x y : float) : float :=
  match Prim2SF x, Prim2SF y with
  | S754_nan, _ | _, S754_nan => nan
  | S754_infinity _, _ => nan
  | _, S754_zero _ => nan
  | S754_zero _, _ => x
  | S754_finite _ _ _, S754_infinity _ => x
  | S754_finite sx mx ex, S754_finite _ my ey =>
      let e := Z.min ex ey in
      let r := Z.rem (Zpos mx * 2 ^ (ex - e)) (Zpos my * 2 ^ (ey - e)) in
      SF2Prim (binary_normalize prec emax (cond_Zopp sx r) e sx)
  end.

(** [v % w] on Python floats (CPython's [float_rem]): [fmod], moved to the
    sign of the divisor. *)
Definition py_float_mod (vx wx : float) : result float :=
  if PrimFloat.eqb wx 0%float then Raise (ZeroDivisionError "float modulo")
  else
    let md := fmod vx wx in
    if negb (PrimFloat.eqb md 0%float) then
      if xorb (PrimFloat.ltb wx 0%float) (PrimFloat.ltb md 0%float)
      then Ok (PrimFloat.add md wx)
      else Ok md
    else Ok (if get_sign wx then (-0)%float else 0%float).

(** ** Strings: [hex], slices, [range], [int(s, 16)] *)

(** [hex(n)]: an optional minus sign, the prefix [0x], lower-case digits
    without leading zeros. *)
Definition hex (n : Z) : string := HexString.of_Z n.

(** [s[i:]] and [s[i:j]]. *)
Definition str_from (i : nat) (s : string) : string :=
  substring i (String.length s - i) s.
Definition str_slice (i j : nat) (s : string) : string :=
  substring i (j - i) s.

(** [range(0, stop, step)] for [step >= 0]. *)
Definition py_range (stop step : nat) : result (list nat) :=
  match step with
  | O => Raise (ValueError "range() arg 3 must not be zero")
  | _ => Ok (map (fun j => (j * step)%nat) (seq 0 ((stop + step - 1) / step)%nat))
  end.

Definition hex_digit (c : ascii) : option Z :=
  let n := Z.of_nat (nat_of_ascii c) in
  if (48 <=? n) && (n <=? 57) then Some (n - 48)
  else if (97 <=? n) && (n <=? 102) then Some (n - 87)
  else if (65 <=? n) && (n <=? 70) then Some (n - 55)
  else None.

Fixpoint hex_value (acc : Z) (s : string) : option Z :=
  match s with
  | EmptyString => Some acc
  | String c s' =>
      match hex_digit c with
      | Some d => hex_value (16 * acc + d) s'
      | None => None
      end
  end.

(** [int(s, 16)] on the substrings the converter builds: those hold hex
    digits and, for a negative color, the letter [x]; an empty string or a
    character that is no hex digit is an invalid literal. *)
Definition invalid_literal (s : string) : exn :=
  ValueError ("invalid literal for int() with base 16: '" +:+ s +:+ "'").

Definition int16 (s : string) : result Z :=
  match s with
  | EmptyString => Raise (invalid_literal s)
  | _ =>
      match hex_value 0 s with
      | Some z => Ok z
      | None => Raise (invalid_literal s)
      end
  end.

(** ** The data model *)

(** An entry of [json_dict["geometries"]]. *)
Record Geometry : Type := mkGeometry {
  geo_uuid : option string;
  geo_radius : option num;
  geo_width : option num;
  geo_height : option num;
  geo_depth : option num
}.

(** An entry of [json_dict["materials"]]; [color] is the packed integer. *)
Record Material : Type := mkMaterial {
  mat_uuid : option string;
  mat_color : option Z
}.

(** A child of the scene: [obj] in the main loop. *)
Record Node : Type := mkNode {
  node_name : option string;
  node_matrix : option (list num);
  node_geometry : option string;
  node_material : option string;
  node_fov : option num;
  node_focus : option num;
  node_intensity : option num
}.

(** [json_dict["object"]]. *)
Record SceneObject : Type := mkSceneObject {
  obj_type : option string;
  obj_children : option (list Node)
}.

(** [json_dict]. *)
Record Document : Type := mkDocument {
  doc_object : option SceneObject;
  doc_geometries : option (list Geometry);
  doc_materials : option (list Material)
}.

(** The value of [new_obj["material"]]. *)
Record Texture : Type := mkTexture { albedo : list float }.

Record MaterialSpec : Type := mkMaterialSpec {
  matType : string;
  texType : string;
  texture : Texture;
  intensity : option float
}.

(** [new_obj]: the keys a branch of the loop assigns are [Some]. *)
Record WorldObject : Type := mkWorldObject {
  objType : string;
  center : option (list float);
  radius : option float;
  position : option (list num);
  width : option float;
  height : option float;
  depth : option float;
  material : option MaterialSpec
}.

Record Constants : Type := mkConstants {
  const_width : Z;
  const_height : Z;
  samplesPerPixel : Z;
  maxDepth : Z;
  minDepth : Z;
  environmentIntensity : float;
  sourcesLambda : float;
  powerRenderCenter : list float
}.

Record Camera : Type := mkCamera {
  lookFrom : list float;
  lookAt : list float;
  vup : list float;
  vfov : float;
  aspectRatio : float;
  aperture : float;
  focusDistance : float
}.

Record YamlDict : Type := mkYamlDict {
  constants : Constants;
  camera : Camera;
  world : list WorldObject
}.

Definition default_constants : Constants :=
  {| const_width := 800; const_height := 800; samplesPerPixel := 32;
     maxDepth := 5000; minDepth := 5;
     environmentIntensity := 0.25%float;
     sourcesLambda := 0.122364268571%float;
     powerRenderCenter := [0%float; 0%float; 0%float] |}.

Definition default_camera : Camera :=
  {| lookFrom := [0%float; 0%float; 0%float];
     lookAt := [0%float; 0%float; 0%float];
     vup := [0%float; 1%float; 0%float];
     vfov := 90%float; aspectRatio := 1%float;
     aperture := 0.1%float; focusDistance := 10%float |}.

(** [yaml_dict] as written before the indexes are built. *)
Definition initial_yaml_dict : YamlDict :=
  {| constants := default_constants; camera := default_camera; world := [] |}.

(** ** Index builder: [geometries[geometry["uuid"]] = geometry] *)

Definition build_index {A : Type} (uuid : A -> option string) (arr : list A)
  : result (gmap string A) :=
  for_each
    (fun index record =>
       let* id := dict_get "uuid" (uuid record) in
       Ok (<[id := record]> index))
    arr ∅.

(** ** Plane orientation *)

(** The branch of the [if]/[elif] chain over [roll] and [pitch] that runs. *)
Inductive plane_branch : Type :=
  | Branch1 | Branch2 | Branch3 | Branch4 | BranchElse.

Definition plane_branch_of (roll pitch : float) : plane_branch :=
  if PrimFloat.leb roll 0.01 && PrimFloat.leb pitch 0.01 then Branch1
  else if PrimFloat.leb (roll - 90) 0.01 && PrimFloat.leb pitch 0.01 then Branch2
  else if PrimFloat.leb roll 0.01 && PrimFloat.leb (pitch - 90) 0.01 then Branch3
  else if PrimFloat.leb (roll - 90) 0.01 && PrimFloat.leb (pitch - 90) 0.01 then Branch4
  else BranchElse.

(** What each branch does to [new_obj["objType"]]. *)
Definition plane_branch_objType (b : plane_branch) : result string :=
  match b with
  | Branch1 => Ok "XYRectangle"
  | Branch2 => Ok "XZRectangle"
  | Branch3 => Ok "YZRectangle"
  | Branch4 => Ok "YZRectangle"
  | BranchElse => Raise (ValueError "Plane has an invalid rotation.")
  end.

Definition plane_objType (roll pitch : float) : result string :=
  plane_branch_objType (plane_branch_of roll pitch).

(** [np.array(m).reshape(4, 4)]: the flat array must hold 16 numbers.
    Building the array never raises on a list of numbers: numpy stores
    them as int64 or as float64 and, when an integer is beyond those, as
    the Python objects themselves. An entry is cast to a double when it is
    passed to [math.acos]; the cast rounds as [float] does and, for an
    integer beyond the doubles, raises the same [OverflowError]. So the
    model keeps the numbers and casts the two entries that are read. *)
Definition np_reshape_4x4 (m : list num) : result (list (list num)) :=
  if Nat.eqb (length m) 16
  then Ok [py_slice 0 4 m; py_slice 4 8 m; py_slice 8 12 m; py_slice 12 16 m]
  else Raise (ValueError ("cannot reshape array of size " +:+ pretty (length m)
                          +:+ " into shape (4,4)")).

Definition list_get {A : Type} (l : list A) (i : nat) : result A :=
  match nth_error l i with
  | Some a => Ok a
  | None => Raise (IndexError "index out of bounds")
  end.

(** [matrix4x4[i][j]] *)
Definition entry {A : Type} (matrix4x4 : list (list A)) (i j : nat) : result A :=
  let* row := list_get matrix4x4 i in
  list_get row j.

Definition set_material (new_obj : WorldObject) (m : MaterialSpec) : WorldObject :=
  {| objType := objType new_obj; center := center new_obj;
     radius := radius new_obj; position := position new_obj;
     width := width new_obj; height := height new_obj;
     depth := depth new_obj; material := Some m |}.

Definition set_camera (yaml_dict : YamlDict) (c : Camera) : YamlDict :=
  {| constants := constants yaml_dict; camera := c; world := world yaml_dict |}.

(** [yaml_dict["world"].append(new_obj)] *)
Definition world_append (yaml_dict : YamlDict) (new_obj : WorldObject) : YamlDict :=
  {| constants := constants yaml_dict; camera := camera yaml_dict;
     world := world yaml_dict ++ [new_obj] |}.

(** ** Material resolver (lines 113-121) *)

Definition channel (c : Z) : result float :=
  let* f := float_of_Z c in
  Ok (f / 255)%float.

Definition rgb_of_color (color : Z) : result (list Z) :=
  let hex_color := str_from 2 (hex color) in
  let n := String.length hex_color in
  let* starts := py_range n (n / 3)%nat in
  list_comp (fun i => int16 (str_slice i (i + n / 3)%nat hex_color)) starts.

Definition albedo_of_color (color : Z) : result (list float) :=
  let* rgbcolor := rgb_of_color color in
  list_comp channel rgbcolor.

Definition lambertian (materials : gmap string Material) (obj : Node)
  : result MaterialSpec :=
  let* id := dict_get "material" (node_material obj) in
  let* mat := index_get materials id in
  let* color := dict_get "color" (mat_color mat) in
  let* alb := albedo_of_color color in
  Ok {| matType := "Lambertian"; texType := "SolidColor";
        texture := {| albedo := alb |}; intensity := None |}.

(** ** Node classifier and transformer (lines 52-112) *)

(** How the dispatch on [obj["name"]] ends: a camera node updates
    [yaml_dict] and [continue]s; every other accepted node leaves a
    [new_obj] for the material step. *)
Inductive outcome : Type :=
  | Continue (yaml_dict : YamlDict)
  | Built (new_obj : WorldObject).

(** [[float(v) for v in obj["matrix"][i:j]]] *)
Definition matrix_floats (obj : Node) (i j : nat) : result (list float) :=
  let* m := dict_get "matrix" (node_matrix obj) in
  list_comp float_of_num (py_slice i j m).

(** [float(obj[key])] *)
Definition scalar_field (key : string) (field : option num) : result float :=
  let* v := dict_get key field in
  float_of_num v.

(** [float(geometries[obj["geometry"]][key])] *)
Definition geometry_param (geometries : gmap string Geometry) (obj : Node)
    (key : string) (field : Geometry -> option num) : result float :=
  let* id := dict_get "geometry" (node_geometry obj) in
  let* g := index_get geometries id in
  let* v := dict_get key (field g) in
  float_of_num v.

(** The arguments [math.acos] rejects: those below -1 or above 1. *)
Definition out_of_domain (x : float) : bool :=
  PrimFloat.ltb x (-1) || PrimFloat.ltb 1 x.

(** The guard of line 17. *)
Definition not_a_scene (json_dict : Document) : bool :=
  match doc_object json_dict with
  | None => true
  | Some o =>
      match obj_type o with
      | None => true
      | Some t => negb (String.eqb t "Scene")
      end
  end.

Section Converter.

(** The C library's [acos] on doubles. *)
Variable libm_acos : float -> float.

(** [math.acos]: an argument outside [-1, 1] is a domain error; NaN
    passes through. *)
Definition math_acos (x : float) : result float :=
  if out_of_domain x
  then Raise (ValueError "math domain error")
  else Ok (libm_acos x).

(** [(math.acos(x) * 57.2958) % 180.0] *)
Definition angle (x : float) : result float :=
  let* a := math_acos x in
  py_float_mod (a * 57.2958) 180.

Definition parse_plane (geometries : gmap string Geometry) (obj : Node)
  : result WorldObject :=
  let* m := dict_get "matrix" (node_matrix obj) in
  let pos := py_slice 12 15 m in
  let* w := geometry_param geometries obj "width" geo_width in
  let* h := geometry_param geometries obj "height" geo_height in
  let* m' := dict_get "matrix" (node_matrix obj) in
  let* matrix4x4 := np_reshape_4x4 m' in
  let* v11 := entry matrix4x4 1 1 in
  let* m11 := float_of_num v11 in
  let* roll := angle m11 in
  let* v00 := entry matrix4x4 0 0 in
  let* m00 := float_of_num v00 in
  let* pitch := angle m00 in
  let* ty := plane_objType roll pitch in
  Ok {| objType := ty; center := None; radius := None;
        position := Some pos; width := Some w; height := Some h;
        depth := None; material := None |}.

Definition parse_obj (geometries : gmap string Geometry)
    (yaml_dict : YamlDict) (obj : Node) : result outcome :=
  let* name := dict_get "name" (node_name obj) in
  if String.eqb name "Sphere" then
    let* c := matrix_floats obj 12 15 in
    let* r := geometry_param geometries obj "radius" geo_radius in
    Ok (Built {| objType := name; center := Some c; radius := Some r;
                 position := None; width := None; height := None;
                 depth := None; material := None |})
  else if String.eqb name "Plane" then
    let* new_obj := parse_plane geometries obj in
    Ok (Built new_obj)
  else if String.eqb name "Box" then
    let* p := matrix_floats obj 12 15 in
    let* w := geometry_param geometries obj "width" geo_width in
    let* h := geometry_param geometries obj "height" geo_height in
    let* d := geometry_param geometries obj "depth" geo_depth in
    Ok (Built {| objType := name; center := None; radius := None;
                 position := Some (map NFloat p); width := Some w;
                 height := Some h; depth := Some d; material := None |})
  else if String.eqb name "PerspectiveCamera" then
    let* from := matrix_floats obj 12 15 in
    let* at_ := matrix_floats obj 8 11 in
    let* fov := scalar_field "fov" (node_fov obj) in
    let* focus := scalar_field "focus" (node_focus obj) in
    let cam := camera yaml_dict in
    Ok (Continue (set_camera yaml_dict
          {| lookFrom := from; lookAt := at_; vup := vup cam;
             vfov := fov; aspectRatio := aspectRatio cam;
             aperture := aperture cam; focusDistance := focus |}))
  else if String.eqb name "PointLight" then
    let* c := matrix_floats obj 12 15 in
    let* i := scalar_field "intensity" (node_intensity obj) in
    Ok (Built {| objType := "Sphere"; center := Some c; radius := Some 1%float;
                 position := None; width := None; height := None;
                 depth := None;
                 material := Some
                   {| matType := "DiffuseLight"; texType := "SolidColor";
                      texture := {| albedo := [1%float; 1%float; 1%float] |};
                      intensity := Some (i * 10)%float |} |})
  else Raise (ValueError "Unknown object type.").

(** One iteration of [for obj in objs]. *)
Definition loop_body (geometries : gmap string Geometry)
    (materials : gmap string Material) (yaml_dict : YamlDict) (obj : Node)
  : result YamlDict :=
  let* o := parse_obj geometries yaml_dict obj in
  match o with
  | Continue yaml_dict' => Ok yaml_dict'
  | Built new_obj =>
      match material new_obj with
      | Some _ => Ok (world_append yaml_dict new_obj)
      | None =>
          let* m := lambertian materials obj in
          Ok (world_append yaml_dict (set_material new_obj m))
      end
  end.

(** [convert_json_to_yaml], up to the call of [yaml.dump]: the result is
    the dictionary that is serialized. *)
Definition convert_json_to_yaml (json_dict : Document) : result YamlDict :=
  if not_a_scene json_dict
  then Raise (ValueError "JSON file is not a Three.JS JSON Scene file.")
  else
    let yaml_dict := initial_yaml_dict in
    let* geoarr := dict_get "geometries" (doc_geometries json_dict) in
    let* geometries := build_index geo_uuid geoarr in
    let* matarr := dict_get "materials" (doc_materials json_dict) in
    let* materials := build_index mat_uuid matarr in
    let* o := dict_get "object" (doc_object json_dict) in
    let* objs := dict_get "children" (obj_children o) in
    for_each (loop_body geometries materials) objs yaml_dict.

End Converter.


(** ** Vocabulary of the statements *)

Definition is_camera (obj : Node) : bool :=
  match node_name obj with
  | Some name => String.eqb name "PerspectiveCamera"
  | None => false
  end.

Definition is_shape (name : string) : bool :=
  String.eqb name "Sphere" || String.eqb name "Plane" || String.eqb name "Box".

(** [angle] is within 0.01 degrees of 90: at least 89.99, and at most
    0.01 above 90 by the comparison the converter applies. *)
Definition near_90 (angle : float) : bool :=
  PrimFloat.leb 89.99 angle && PrimFloat.leb (angle - 90) 0.01.

(** [c] is the camera block after the camera node [obj] overwrote the
    block [base]: four fields are read from the node, three are kept. *)
Definition camera_from (base : Camera) (obj : Node) (c : Camera) : Prop :=
  matrix_floats obj 12 15 = Ok (lookFrom c) /\
  matrix_floats obj 8 11 = Ok (lookAt c) /\
  scalar_field "fov" (node_fov obj) = Ok (vfov c) /\
  scalar_field "focus" (node_focus obj) = Ok (focusDistance c) /\
  vup c = vup base /\ aspectRatio c = aspectRatio base /\
  aperture c = aperture base.

(** The steps that precede the geometry lookup of a shape node succeed:
    a Plane has read [obj["matrix"]]; a Sphere or a Box has cast the
    translation. *)
Definition reaches_geometry_lookup (name : string) (obj : Node) : bool :=
  if String.eqb name "Plane"
  then match node_matrix obj with Some _ => true | None => false end
  else is_ok (matrix_floats obj 12 15).

(** ** Sample scenes *)

(** The arc cosine at the diagonal entries of the sample planes (1, cos 45
    degrees, 0 and -1), as the C library returns it; it instantiates
    [libm_acos] in the examples. *)
Definition acos_axis (x : float) : float :=
  if PrimFloat.eqb x 1 then 0%float
  else if PrimFloat.eqb x 0.7071067811865476 then 0.7853981633974483%float
  else if PrimFloat.eqb x 0 then 1.5707963267948966%float
  else if PrimFloat.eqb x (-1) then 3.141592653589793%float
  else nan.

(** An unrotated transform, in the flat layout of the export, with the
    translation at offsets 12, 13, 14. *)
Definition translation (tx ty tz : num) : list num :=
  [NInt 1; NInt 0; NInt 0; NInt 0;
   NInt 0; NInt 1; NInt 0; NInt 0;
   NInt 0; NInt 0; NInt 1; NInt 0;
   tx; ty; tz; NInt 1].

Definition sample_sphere : Node :=
  {| node_name := Some "Sphere"%string;
     node_matrix := Some (translation (NInt 1) (NFloat 2.5) (NInt (-3)));
     node_geometry := Some "geo-1"%string;
     node_material := Some "mat-1"%string;
     node_fov := None; node_focus := None; node_intensity := None |}.

Definition sample_camera (tz fov : Z) : Node :=
  {| node_name := Some "PerspectiveCamera"%string;
     node_matrix := Some (translation (NInt 0) (NInt 0) (NInt tz));
     node_geometry := None; node_material := None;
     node_fov := Some (NInt fov); node_focus := Some (NInt 10);
     node_intensity := None |}.

(** A light carries no material reference. *)
Definition sample_light : Node :=
  {| node_name := Some "PointLight"%string;
     node_matrix := Some (translation (NInt 0) (NInt 10) (NInt 0));
     node_geometry := None; node_material := None;
     node_fov := None; node_focus := None;
     node_intensity := Some (NFloat 2.5) |}.

Definition sample_geometry : Geometry :=
  {| geo_uuid := Some "geo-1"%string; geo_radius := Some (NInt 2);
     geo_width := Some (NInt 4); geo_height := Some (NInt 3);
     geo_depth := Some (NInt 1) |}.

(** Color 0xff8000. *)
Definition sample_material : Material :=
  {| mat_uuid := Some "mat-1"%string; mat_color := Some 16744448 |}.

Definition sample_children : list Node :=
  [sample_camera 5 50; sample_sphere; sample_light; sample_camera 8 40].

Definition sample_object : SceneObject :=
  {| obj_type := Some "Scene"%string; obj_children := Some sample_children |}.

Definition sample_scene : Document :=
  {| doc_object := Some sample_object;
     doc_geometries := Some [sample_geometry];
     doc_materials := Some [sample_material] |}.

Definition sample_sphere_object (ms : MaterialSpec) : WorldObject :=
  {| objType := "Sphere"; center := Some [1%float; 2.5%float; (-3)%float];
     radius := Some 2%float; position := None; width := None;
     height := None; depth := None; material := Some ms |}.

Definition sample_light_object : WorldObject :=
  {| objType := "Sphere"; center := Some [0%float; 10%float; 0%float];
     radius := Some 1%float; position := None; width := None;
     height := None; depth := None;
     material := Some
       {| matType := "DiffuseLight"; texType := "SolidColor";
          texture := {| albedo := [1%float; 1%float; 1%float] |};
          intensity := Some 25%float |} |}.

(** What the converter hands to the serializer for [sample_scene]. *)
Definition sample_output : YamlDict :=
  {| constants := default_constants;
     camera :=
       {| lookFrom := [0%float; 0%float; 8%float];
          lookAt := [0%float; 0%float; 1%float];
          vup := [0%float; 1%float; 0%float];
          vfov := 40%float; aspectRatio := 1%float;
          aperture := 0.1%float; focusDistance := 10%float |};
     world :=
       [sample_sphere_object
          {| matType := "Lambertian"; texType := "SolidColor";
             texture := {| albedo := [1%float; (128 / 255)%float; 0%float] |};
             intensity := None |};
        sample_light_object] |}.

(** The sample sphere with a black (color 0) or a white material. *)
Definition one_sphere_scene (color : Z) : Document :=
  {| doc_object :=
       Some {| obj_type := Some "Scene"%string;
               obj_children := Some [sample_sphere] |};
     doc_geometries := Some [sample_geometry];
     doc_materials :=
       Some [{| mat_uuid := Some "mat-1"%string; mat_color := Some color |}] |}.

(** A plane scaled by 2 along Y: [m[1][1]] is 2. *)
Definition scaled_plane : Node :=
  {| node_name := Some "Plane"%string;
     node_matrix :=
       Some [NInt 1; NInt 0; NInt 0; NInt 0;
             NInt 0; NInt 2; NInt 0; NInt 0;
             NInt 0; NInt 0; NInt 1; NInt 0;
             NInt 0; NInt 0; NInt 0; NInt 1];
     node_geometry := Some "geo-1"%string;
     node_material := Some "mat-1"%string;
     node_fov := None; node_focus := None; node_intensity := None |}.

(** A plane rotated 45 degrees about X: [m[0][0]] is 1 and [m[1][1]] is
    cos 45. *)
Definition tilted_plane : Node :=
  {| node_name := Some "Plane"%string;
     node_matrix :=
       Some [NInt 1; NInt 0; NInt 0; NInt 0;
             NInt 0; NFloat 0.7071067811865476; NFloat 0.7071067811865476; NInt 0;
             NInt 0; NFloat (-0.7071067811865476); NFloat 0.7071067811865476; NInt 0;
             NInt 0; NInt 0; NInt 0; NInt 1];
     node_geometry := Some "geo-1"%string;
     node_material := Some "mat-1"%string;
     node_fov := None; node_focus := None; node_intensity := None |}.

(** A sphere and a box whose references name records that do not exist. *)
Definition dangling_sphere : Node :=
  {| node_name := Some "Sphere"%string;
     node_matrix := Some (translation (NInt 0) (NInt 0) (NInt 0));
     node_geometry := Some "geo-9"%string;
     node_material := Some "mat-1"%string;
     node_fov := None; node_focus := None; node_intensity := None |}.

Definition dangling_box : Node :=
  {| node_name := Some "Box"%string;
     node_matrix := Some (translation (NInt 0) (NInt 0) (NInt 0));
     node_geometry := Some "geo-1"%string;
     node_material := Some "mat-9"%string;
     node_fov := None; node_focus := None; node_intensity := None |}.

(** ** Further sample data *)

(** A second record with the uuid of [sample_geometry]. *)
Definition later_geometry : Geometry :=
  {| geo_uuid := Some "geo-1"%string; geo_radius := Some (NInt 5);
     geo_width := None; geo_height := None; geo_depth := None |}.

(** A plane geometry: width and height, no radius. *)
Definition plane_geometry : Geometry :=
  {| geo_uuid := Some "geo-2"%string; geo_radius := None;
     geo_width := Some (NInt 4); geo_height := Some (NInt 3);
     geo_depth := None |}.

Definition node_named (name : string) (m : list num) (geometry : string) : Node :=
  {| node_name := Some name; node_matrix := Some m;
     node_geometry := Some geometry; node_material := Some "mat-1"%string;
     node_fov := None; node_focus := None; node_intensity := None |}.

Definition sample_box : Node :=
  node_named "Box" (translation (NInt 1) (NInt 2) (NInt 3)) "geo-1".

Definition flat_plane : Node :=
  node_named "Plane" (translation (NInt 1) (NInt 2) (NInt 3)) "geo-1".

(** The first 13 numbers of a transform: one translation entry only. *)
Definition short_matrix : list num :=
  [NInt 1; NInt 0; NInt 0; NInt 0;
   NInt 0; NInt 1; NInt 0; NInt 0;
   NInt 0; NInt 0; NInt 1; NInt 0;
   NInt 7].

Definition scene_of (objs : list Node) : Document :=
  {| doc_object :=
       Some {| obj_type := Some "Scene"%string; obj_children := Some objs |};
     doc_geometries := Some [sample_geometry];
     doc_materials := Some [sample_material] |}.

(** ** Vocabulary of the further properties *)

(** [record] carries the uuid [id]. *)
Definition has_uuid {A : Type} (uuid : A -> option string) (id : string)
    (record : A) : bool :=
  match uuid record with
  | Some u => String.eqb u id
  | None => false
  end.

Definition keyed {A : Type} (uuid : A -> option string) (record : A) : bool :=
  match uuid record with Some _ => true | None => false end.

(** The five names the dispatch of the main loop accepts. *)
Definition known_tag (name : string) : bool :=
  is_shape name || String.eqb name "PerspectiveCamera"
  || String.eqb name "PointLight".

(** The lower-case hex digit of [d]. *)
Definition hexchar (d : Z) : ascii :=
  match d with
  | 0 => "0" | 1 => "1" | 2 => "2" | 3 => "3" | 4 => "4" | 5 => "5"
  | 6 => "6" | 7 => "7" | 8 => "8" | 9 => "9" | 10 => "a" | 11 => "b"
  | 12 => "c" | 13 => "d" | 14 => "e" | 15 => "f" | _ => "?"
  end%char.

(** The [n] lowest hex digits of [q], most significant first, written in
    front of [rest]. *)
Fixpoint hex_string_of (n : nat) (q : Z) (rest : string) : string :=
  match n with
  | O => rest
  | S n' => hex_string_of n' (q / 16) (String (hexchar (q mod 16)) rest)
  end.

(** [float(c) / 255.0] exists and lies in [0.0, 1.0]. *)
Definition channel_in_unit (c : Z) : bool :=
  match channel c with
  | Ok f => PrimFloat.leb 0 f && PrimFloat.leb f 1
  | Raise _ => false
  end.

(** The resolver stops at [range] with a zero step. *)
Definition raises_zero_step (color : Z) : bool :=
  match albedo_of_color color with
  | Raise (ValueError msg) => String.eqb msg "range() arg 3 must not be zero"
  | _ => false
  end.

Definition is_some {A : Type} (o : option A) : bool :=
  match o with Some _ => true | None => false end.

Definition is_none {A : Type} (o : option A) : bool :=
  match o with Some _ => false | None => true end.

(** A material spec of the output: Lambertian without intensity, or
    DiffuseLight with one; both with a solid-color texture. *)
Definition material_well_formed (ms : MaterialSpec) : bool :=
  String.eqb (texType ms) "SolidColor" &&
  ((String.eqb (matType ms) "Lambertian" && is_none (intensity ms))
   || (String.eqb (matType ms) "DiffuseLight" && is_some (intensity ms))).

(** A world object of the output: one of the five tags, with exactly the
    keys of its kind and a material. *)
Definition object_well_formed (w : WorldObject) : bool :=
  match material w with
  | Some ms => material_well_formed ms
  | None => false
  end &&
  (if String.eqb (objType w) "Sphere" then
     is_some (center w) && is_some (radius w) && is_none (position w)
     && is_none (width w) && is_none (height w) && is_none (depth w)
   else if String.eqb (objType w) "Box" then
     is_none (center w) && is_none (radius w) && is_some (position w)
     && is_some (width w) && is_some (height w) && is_some (depth w)
   else if String.eqb (objType w) "XYRectangle"
           || String.eqb (objType w) "XZRectangle"
           || String.eqb (objType w) "YZRectangle" then
     is_none (center w) && is_none (radius w) && is_some (position w)
     && is_some (width w) && is_some (height w) && is_none (depth w)
   else false).

(** The document [json_dict] with the list [objs] as the children of its
    root. *)
Definition with_children (json_dict : Document) (objs : list Node) : Document :=
  {| doc_object :=
       match doc_object json_dict with
       | Some o => Some {| obj_type := obj_type o; obj_children := Some objs |}
       | None => None
       end;
     doc_geometries := doc_geometries json_dict;
     doc_materials := doc_materials json_dict |}.

Definition not_camera (obj : Node) : bool := negb (is_camera obj).

(** * Properties *)

(** ** The Python primitives on sample arguments *)

Example hex_samples :
  hex 16777215 = "0xffffff"%string /\ hex 65280 = "0xff00"%string /\
  hex 0 = "0x0"%string /\ hex (-255) = "-0xff"%string.
Proof. repeat split; reflexivity. Qed.

Example float_of_Z_samples :
  float_of_Z 255 = Ok 255%float /\
  float_of_Z (2 ^ 53 + 1) = Ok 9007199254740992%float /\
  float_of_Z (2 ^ 53 + 3) = Ok 9007199254740996%float /\
  float_of_Z (2 ^ 1024 - 2 ^ 970 - 1) = Ok 1.7976931348623157e+308%float /\
  float_of_Z (2 ^ 1024 - 2 ^ 970)
  = Raise (OverflowError "int too large to convert to float").
Proof. repeat split; vm_compute; reflexivity. Qed.

Example py_float_mod_samples :
  py_float_mod 540.5 180 = Ok 0.5%float /\
  py_float_mod (-1) 180 = Ok 179%float /\
  py_float_mod 7.5 (-2) = Ok (-0.5)%float /\
  py_float_mod (3.141592653589793 * 57.2958) 180
  = Ok 6.436155007349953e-05%float /\
  py_float_mod nan 180 = Ok nan /\
  py_float_mod 1 0 = Raise (ZeroDivisionError "float modulo").
Proof. repeat split; vm_compute; reflexivity. Qed.

Example rgb_of_color_samples :
  rgb_of_color 1193046 = Ok [18; 52; 86] /\
  rgb_of_color 65280 = Ok [15; 15; 0; 0] /\
  rgb_of_color (-19088743)
  = Raise (ValueError "invalid literal for int() with base 16: 'x1'").
Proof. repeat split; vm_compute; reflexivity. Qed.

(** ** The error monad and the loops *)

Lemma bind_ok {A B : Type} (m : result A) (k : A -> result B) (b : B) :
  bind m k = Ok b -> exists a, m = Ok a /\ k a = Ok b.
Proof. destruct m as [a|e]; simpl; [eauto | discriminate]. Qed.

(** Inversion of a chain of binds that ends in [Ok]. *)
Ltac inv_ok :=
  repeat match goal with
  | H : bind _ _ = Ok _ |- _ =>
      let a := fresh "a" in
      let Ha := fresh "Ha" in
      apply bind_ok in H as (a & Ha & H)
  | H : Ok _ = Ok _ |- _ => injection H as <-
  end.

Lemma list_comp_length {A B : Type} (f : A -> result B) (l : list A) (r : list B) :
  list_comp f l = Ok r -> length r = length l.
Proof.
  revert r. induction l as [|v l IH]; intros r H; simpl in H.
  - injection H as <-. reflexivity.
  - inv_ok. simpl. f_equal. auto.
Qed.

Lemma for_each_app {S A : Type} (body : S -> A -> result S) (l1 l2 : list A) (s : S) :
  for_each body (l1 ++ l2) s = let* s1 := for_each body l1 s in for_each body l2 s1.
Proof.
  revert s. induction l1 as [|x l1 IH]; intros s; simpl; [reflexivity|].
  destruct (body s x) as [s'|e]; simpl; [apply IH | reflexivity].
Qed.

Lemma py_slice_12_15 {A : Type} (m : list A) (a b c : A) :
  m !! 12%nat = Some a -> m !! 13%nat = Some b -> m !! 14%nat = Some c ->
  py_slice 12 15 m = [a; b; c].
Proof.
  do 15 (destruct m as [|? m]; [discriminate|]); simpl.
  intros [= ->] [= ->] [= ->]. reflexivity.
Qed.

(** ** Material resolver *)

(** C2: packed color 0xFFFFFF resolves to the albedo [1.0, 1.0, 1.0]; packed
    color 0x000000 does not resolve to [0.0, 0.0, 0.0]: [hex(0)[2:]] is the
    one-character string [0], the chunk length [1 // 3] is 0 and [range]
    raises, so a scene whose sphere has a black material is not
    converted. *)
Theorem albedo_white_and_black (libm_acos : float -> float) :
  albedo_of_color 16777215 = Ok [1%float; 1%float; 1%float] /\
  str_from 2 (hex 0) = "0"%string /\
  albedo_of_color 0 = Raise (ValueError "range() arg 3 must not be zero") /\
  (world <$> (match convert_json_to_yaml libm_acos (one_sphere_scene 16777215)
              with Ok out => Some out | Raise _ => None end)
   = Some [sample_sphere_object
             {| matType := "Lambertian"; texType := "SolidColor";
                texture := {| albedo := [1%float; 1%float; 1%float] |};
                intensity := None |}]) /\
  convert_json_to_yaml libm_acos (one_sphere_scene 0)
  = Raise (ValueError "range() arg 3 must not be zero").
Proof. repeat split; vm_compute; reflexivity. Qed.

(** ** Plane orientation *)

(** C3, as stated, fails: with roll = 90 and pitch = 90 the fourth branch
    runs. So it does for a plane rotated 90 degrees about Z, whose
    [m[0][0]] and [m[1][1]] are 0: the arc cosine of 0 is
    1.5707963267948966 and both angles are
    [(1.5707963267948966 * 57.2958) % 180.0], a little above 90. *)
Lemma fourth_branch_is_taken :
  plane_branch_of 90 90 = Branch4 /\
  plane_objType 90 90 = Ok "YZRectangle"%string /\
  (let* roll := py_float_mod (1.5707963267948966 * 57.2958) 180 in
   let* pitch := py_float_mod (1.5707963267948966 * 57.2958) 180 in
   Ok (plane_branch_of roll pitch)) = Ok Branch4.
Proof. repeat split; vm_compute; reflexivity. Qed.

(** An angle of at least 89.99 fails the test [angle <= 0.01]. *)
Lemma near_90_not_near_0 (x : float) :
  PrimFloat.leb 89.99 x = true -> PrimFloat.leb x 0.01 = false.
Proof.
  rewrite !leb_spec.
  change (Prim2SF 89.99) with (S754_finite false 6332483288547983 (-46)).
  change (Prim2SF 0.01) with (S754_finite false 5764607523034235 (-59)).
  destruct (Prim2SF x) as [s|s| |s m e];
    try (destruct s); try reflexivity; try discriminate.
  unfold SFleb, SFcompare.
  destruct (Z.compare_spec (-46) e) as [<-|Hlt|Hgt]; try discriminate.
  - reflexivity.
  - intros _. destruct (Z.compare_spec e (-59)); try lia; try reflexivity.
Qed.

(** C3, amended: the fourth branch is reachable: it runs whenever roll and
    pitch are both within 0.01 degrees of 90, and the plane becomes a
    YZRectangle. No earlier branch takes such a pair: the first and the
    second need pitch <= 0.01, the third needs roll <= 0.01. *)
Theorem fourth_branch_near_90 (roll pitch : float) :
  near_90 roll = true -> near_90 pitch = true ->
  plane_branch_of roll pitch = Branch4 /\
  plane_objType roll pitch = Ok "YZRectangle"%string.
Proof.
  unfold near_90. intros Hr Hp.
  apply andb_true_iff in Hr as [Hr0 Hr90].
  apply andb_true_iff in Hp as [Hp0 Hp90].
  apply near_90_not_near_0 in Hr0, Hp0.
  assert (plane_branch_of roll pitch = Branch4) as E.
  { unfold plane_branch_of. rewrite Hr0, Hp0, Hr90, Hp90. reflexivity. }
  split; [exact E|]. unfold plane_objType. rewrite E. reflexivity.
Qed.

Section Properties.

Variable libm_acos : float -> float.

(** ** Input validity *)

(** C8: a document without [object], or whose [object] has no [type], or
    whose type is not [Scene], raises the input-validity error; the
    result does not depend on the geometries, the materials or the
    children, none of which is read. *)
Theorem not_a_scene_raises (json_dict : Document) :
  (doc_object json_dict = None \/
   exists o, doc_object json_dict = Some o /\
             (obj_type o = None \/
              exists t, obj_type o = Some t /\ t <> "Scene"%string)) ->
  convert_json_to_yaml libm_acos json_dict =
    Raise (ValueError "JSON file is not a Three.JS JSON Scene file.").
Proof.
  intros H. unfold convert_json_to_yaml.
  assert (not_a_scene json_dict = true) as ->; [|reflexivity].
  unfold not_a_scene.
  destruct H as [-> | (o & -> & [-> | (t & -> & Ht)])]; try reflexivity.
  apply String.eqb_neq in Ht. rewrite Ht. reflexivity.
Qed.

(** ** One iteration of the main loop *)

Lemma parse_obj_camera geometries yaml_dict obj :
  is_camera obj = true ->
  parse_obj libm_acos geometries yaml_dict obj =
    let* from := matrix_floats obj 12 15 in
    let* at_ := matrix_floats obj 8 11 in
    let* fov := scalar_field "fov" (node_fov obj) in
    let* focus := scalar_field "focus" (node_focus obj) in
    Ok (Continue (set_camera yaml_dict
          {| lookFrom := from; lookAt := at_; vup := vup (camera yaml_dict);
             vfov := fov; aspectRatio := aspectRatio (camera yaml_dict);
             aperture := aperture (camera yaml_dict);
             focusDistance := focus |})).
Proof.
  unfold is_camera, parse_obj. destruct (node_name obj) as [name|]; [|discriminate].
  intros H. apply String.eqb_eq in H. subst name. reflexivity.
Qed.

Lemma parse_obj_not_camera geometries yaml_dict obj o :
  is_camera obj = false ->
  parse_obj libm_acos geometries yaml_dict obj = Ok o ->
  exists new_obj, o = Built new_obj /\
    forall y0, parse_obj libm_acos geometries y0 obj = Ok (Built new_obj).
Proof.
  unfold is_camera, parse_obj.
  destruct (node_name obj) as [name|]; simpl; [|discriminate].
  intros Hcam.
  destruct (String.eqb name "Sphere"); [|destruct (String.eqb name "Plane");
    [|destruct (String.eqb name "Box"); [|rewrite Hcam;
        destruct (String.eqb name "PointLight"); [|discriminate]]]];
    intros H; repeat (apply bind_ok in H as (? & -> & H)); simpl;
    injection H as <-; eauto.
Qed.

Lemma loop_body_camera geometries materials y y' obj :
  is_camera obj = true ->
  loop_body libm_acos geometries materials y obj = Ok y' ->
  constants y' = constants y /\ world y' = world y /\
  camera_from (camera y) obj (camera y').
Proof.
  intros Hcam. unfold loop_body. rewrite (parse_obj_camera _ _ _ Hcam).
  intros H. unfold camera_from.
  destruct (matrix_floats obj 12 15); [|discriminate].
  destruct (matrix_floats obj 8 11); [|discriminate].
  destruct (scalar_field "fov" (node_fov obj)); [|discriminate].
  destruct (scalar_field "focus" (node_focus obj)); [|discriminate].
  simpl in H. injection H as <-. simpl. auto 10.
Qed.

Lemma loop_body_not_camera geometries materials y y' obj :
  is_camera obj = false ->
  loop_body libm_acos geometries materials y obj = Ok y' ->
  exists w, y' = world_append y w /\
    forall y0, loop_body libm_acos geometries materials y0 obj
               = Ok (world_append y0 w).
Proof.
  intros Hcam H. unfold loop_body in H.
  apply bind_ok in H as (o & Ho & H).
  destruct (parse_obj_not_camera _ _ _ _ Hcam Ho) as (new_obj & -> & Hall).
  destruct (material new_obj) eqn:Hm.
  - injection H as <-. exists new_obj. split; [reflexivity|].
    intros y0. unfold loop_body. rewrite Hall. simpl. rewrite Hm. reflexivity.
  - apply bind_ok in H as (m & Hl & [= <-]).
    exists (set_material new_obj m). split; [reflexivity|].
    intros y0. unfold loop_body. rewrite Hall. simpl. rewrite Hm, Hl. reflexivity.
Qed.

(** ** The main loop *)

Lemma last_filter_cons {A : Type} (f : A -> bool) (x : A) (l : list A) :
  last (List.filter f (x :: l)) =
    match last (List.filter f l) with
    | Some z => Some z
    | None => if f x then Some x else None
    end.
Proof.
  simpl. destruct (f x).
  - rewrite last_cons. destruct (last (List.filter f l)); reflexivity.
  - destruct (last (List.filter f l)); reflexivity.
Qed.

Lemma camera_from_base base base' obj c :
  vup base' = vup base -> aspectRatio base' = aspectRatio base ->
  aperture base' = aperture base ->
  camera_from base' obj c -> camera_from base obj c.
Proof.
  unfold camera_from. intros <- <- <-. auto.
Qed.

Lemma main_loop geometries materials objs y y' :
  for_each (loop_body libm_acos geometries materials) objs y = Ok y' ->
  constants y' = constants y /\
  (exists ws, world y' = world y ++ ws /\
     Forall2 (fun obj w => forall y0,
                loop_body libm_acos geometries materials y0 obj
                = Ok (world_append y0 w))
             (List.filter (fun obj => negb (is_camera obj)) objs) ws) /\
  match last (List.filter is_camera objs) with
  | None => camera y' = camera y
  | Some cam => camera_from (camera y) cam (camera y')
  end.
Proof.
  revert y. induction objs as [|obj objs IH]; intros y H.
  - injection H as <-. split; [reflexivity|]. split; [|reflexivity].
    exists []. rewrite app_nil_r. split; [reflexivity | constructor].
  - simpl in H. apply bind_ok in H as (y1 & Hstep & Hrest).
    destruct (IH _ Hrest) as (Hc & (ws & Hw & Hall) & Hcam). clear IH.
    rewrite last_filter_cons. simpl List.filter.
    destruct (is_camera obj) eqn:Hobj; simpl negb; cbv iota.
    + destruct (loop_body_camera _ _ _ _ _ Hobj Hstep) as (Hc1 & Hw1 & Hfrom).
      split; [congruence|]. split.
      * exists ws. split; [congruence | assumption].
      * destruct (last (List.filter is_camera objs)) as [cam|].
        -- destruct Hfrom as (_ & _ & _ & _ & ? & ? & ?).
           eapply camera_from_base; eauto.
        -- rewrite Hcam. assumption.
    + destruct (loop_body_not_camera _ _ _ _ _ Hobj Hstep) as (w & -> & Hw1).
      simpl in *. split; [assumption|]. split.
      * exists (w :: ws). rewrite Hw, <- app_assoc. split; [reflexivity|].
        constructor; assumption.
      * destruct (last (List.filter is_camera objs)); assumption.
Qed.

Lemma convert_ok json_dict o objs out :
  doc_object json_dict = Some o -> obj_children o = Some objs ->
  convert_json_to_yaml libm_acos json_dict = Ok out ->
  exists geoarr matarr geometries materials,
    doc_geometries json_dict = Some geoarr /\
    build_index geo_uuid geoarr = Ok geometries /\
    doc_materials json_dict = Some matarr /\
    build_index mat_uuid matarr = Ok materials /\
    for_each (loop_body libm_acos geometries materials) objs initial_yaml_dict
    = Ok out.
Proof.
  intros Ho Hobjs. unfold convert_json_to_yaml.
  destruct (not_a_scene json_dict); [discriminate|].
  rewrite Ho. simpl. rewrite Hobjs.
  destruct (doc_geometries json_dict) as [geoarr|]; [|discriminate].
  simpl. destruct (build_index geo_uuid geoarr) as [geometries|] eqn:Hg; [|discriminate].
  simpl. destruct (doc_materials json_dict) as [matarr|]; [|discriminate].
  simpl. destruct (build_index mat_uuid matarr) as [materials|] eqn:Hm; [|discriminate].
  simpl. intros H. exists geoarr, matarr, geometries, materials. auto 10.
Qed.

(** ** World objects *)

(** C4: when conversion succeeds, the world holds one object per child
    that is not a PerspectiveCamera, so its length is the number of
    children minus the number of camera children; and the objects stand in
    the order of the children they come from: the k-th world object is the
    one the loop body appends for the k-th non-camera child. *)
Theorem world_length_and_order json_dict o objs out :
  doc_object json_dict = Some o -> obj_children o = Some objs ->
  convert_json_to_yaml libm_acos json_dict = Ok out ->
  length (world out)
  = (length objs - length (List.filter is_camera objs))%nat /\
  exists geoarr matarr geometries materials,
    doc_geometries json_dict = Some geoarr /\
    build_index geo_uuid geoarr = Ok geometries /\
    doc_materials json_dict = Some matarr /\
    build_index mat_uuid matarr = Ok materials /\
    Forall2 (fun obj w => forall y0,
               loop_body libm_acos geometries materials y0 obj
               = Ok (world_append y0 w))
            (List.filter (fun obj => negb (is_camera obj)) objs) (world out).
Proof.
  intros Ho Hobjs H.
  destruct (convert_ok _ _ _ _ Ho Hobjs H)
    as (geoarr & matarr & geometries & materials & Hga & Hg & Hma & Hm & Hloop).
  destruct (main_loop _ _ _ _ _ Hloop) as (_ & (ws & Hw & Hall) & _).
  simpl in Hw. subst ws. split.
  - apply Forall2_length in Hall. rewrite <- Hall.
    pose proof (List.filter_length is_camera objs) as Hlen. lia.
  - exists geoarr, matarr, geometries, materials. auto 10.
Qed.

(** C5: a Sphere node whose matrix holds [tx], [ty], [tz] at offsets 12,
    13, 14 and whose geometry id resolves to a record of radius [rv]
    leaves the dispatch with center [[float(tx), float(ty), float(tz)]]
    and radius [float(rv)]; the material step only adds the material, so
    the appended world object has that center and that radius. *)
Theorem sphere_center_and_radius geometries materials y obj
    m tx ty tz c0 c1 c2 id g rv r :
  node_name obj = Some "Sphere"%string ->
  node_matrix obj = Some m ->
  m !! 12%nat = Some tx -> m !! 13%nat = Some ty -> m !! 14%nat = Some tz ->
  float_of_num tx = Ok c0 -> float_of_num ty = Ok c1 ->
  float_of_num tz = Ok c2 ->
  node_geometry obj = Some id -> geometries !! id = Some g ->
  geo_radius g = Some rv -> float_of_num rv = Ok r ->
  parse_obj libm_acos geometries y obj
  = Ok (Built {| objType := "Sphere"; center := Some [c0; c1; c2];
                 radius := Some r; position := None; width := None;
                 height := None; depth := None; material := None |}) /\
  loop_body libm_acos geometries materials y obj
  = let* ms := lambertian materials obj in
    Ok (world_append y
          {| objType := "Sphere"; center := Some [c0; c1; c2];
             radius := Some r; position := None; width := None;
             height := None; depth := None; material := Some ms |}).
Proof.
  intros Hname Hm H12 H13 H14 Hc0 Hc1 Hc2 Hid Hg Hrv Hr.
  assert (parse_obj libm_acos geometries y obj
          = Ok (Built {| objType := "Sphere"; center := Some [c0; c1; c2];
                 radius := Some r; position := None; width := None;
                 height := None; depth := None; material := None |})) as Hp.
  { unfold parse_obj, matrix_floats, geometry_param, index_get.
    rewrite Hname, Hm, Hid. simpl.
    rewrite (py_slice_12_15 _ _ _ _ H12 H13 H14). simpl.
    rewrite Hc0, Hc1, Hc2, Hg. simpl. rewrite Hrv. simpl. rewrite Hr.
    reflexivity. }
  split; [exact Hp|].
  unfold loop_body. rewrite Hp. simpl.
  destruct (lambertian materials obj); reflexivity.
Qed.

(** C6: a PointLight node appends exactly one object at the end of the
    world and leaves the rest of the output as it is: a Sphere of radius
    1.0 at the node's translation with a DiffuseLight material of albedo
    [1.0, 1.0, 1.0] and intensity [float(intensity) * 10.0], whatever the
    material index holds and whatever the node's own material reference
    is: neither is read. *)
Theorem point_light_object geometries materials y obj
    m tx ty tz c0 c1 c2 iv i :
  node_name obj = Some "PointLight"%string ->
  node_matrix obj = Some m ->
  m !! 12%nat = Some tx -> m !! 13%nat = Some ty -> m !! 14%nat = Some tz ->
  float_of_num tx = Ok c0 -> float_of_num ty = Ok c1 ->
  float_of_num tz = Ok c2 ->
  node_intensity obj = Some iv -> float_of_num iv = Ok i ->
  loop_body libm_acos geometries materials y obj
  = Ok {| constants := constants y;
          camera := camera y;
          world :=
            world y ++
            [{| objType := "Sphere"; center := Some [c0; c1; c2];
                radius := Some 1%float; position := None; width := None;
                height := None; depth := None;
                material := Some
                  {| matType := "DiffuseLight"; texType := "SolidColor";
                     texture := {| albedo := [1%float; 1%float; 1%float] |};
                     intensity := Some (i * 10)%float |} |}] |}.
Proof.
  intros Hname Hm H12 H13 H14 Hc0 Hc1 Hc2 Hiv Hi.
  unfold loop_body, parse_obj, matrix_floats, scalar_field.
  rewrite Hname, Hm, Hiv. simpl.
  rewrite (py_slice_12_15 _ _ _ _ H12 H13 H14). simpl.
  rewrite Hc0, Hc1, Hc2. simpl. rewrite Hi. reflexivity.
Qed.

(** ** The camera block *)

(** C7: the output has one camera block, the field [camera]. With no
    camera child it is the default block; otherwise lookFrom, lookAt, vfov
    and focusDistance are read from the last camera child and vup,
    aspectRatio and aperture keep their defaults. Camera children add
    nothing to the world: it has one object per other child. *)
Theorem one_camera_block json_dict o objs out :
  doc_object json_dict = Some o -> obj_children o = Some objs ->
  convert_json_to_yaml libm_acos json_dict = Ok out ->
  match last (List.filter is_camera objs) with
  | None => camera out = default_camera
  | Some cam => camera_from default_camera cam (camera out)
  end /\
  length (world out)
  = length (List.filter (fun obj => negb (is_camera obj)) objs).
Proof.
  intros Ho Hobjs H.
  destruct (convert_ok _ _ _ _ Ho Hobjs H)
    as (geoarr & matarr & geometries & materials & _ & _ & _ & _ & Hloop).
  destruct (main_loop _ _ _ _ _ Hloop) as (_ & (ws & Hw & Hall) & Hcam).
  simpl in Hw. subst ws. split; [exact Hcam|].
  symmetry. eapply Forall2_length, Hall.
Qed.

(** ** Plane orientation of a node *)

Lemma py_float_mod_180 (x : float) : exists r, py_float_mod x 180 = Ok r.
Proof.
  unfold py_float_mod.
  change (PrimFloat.eqb 180 0) with false. cbv iota.
  destruct (negb (PrimFloat.eqb (fmod x 180) 0)); [|eauto].
  destruct (xorb _ _); eauto.
Qed.

Lemma angle_cases (x : float) :
  if out_of_domain x
  then angle libm_acos x = Raise (ValueError "math domain error")
  else exists r, angle libm_acos x = Ok r.
Proof.
  unfold angle, math_acos. destruct (out_of_domain x); [reflexivity|].
  simpl. apply py_float_mod_180.
Qed.

Lemma parse_plane_angles geometries y obj m a w h d11 d00 :
  node_name obj = Some "Plane"%string ->
  node_matrix obj = Some m ->
  geometry_param geometries obj "width" geo_width = Ok w ->
  geometry_param geometries obj "height" geo_height = Ok h ->
  list_comp float_of_num m = Ok a -> length a = 16%nat ->
  a !! 5%nat = Some d11 -> a !! 0%nat = Some d00 ->
  parse_obj libm_acos geometries y obj
  = let* roll := angle libm_acos d11 in
    let* pitch := angle libm_acos d00 in
    let* ty := plane_objType roll pitch in
    Ok (Built {| objType := ty; center := None; radius := None;
                 position := Some (py_slice 12 15 m);
                 width := Some w; height := Some h;
                 depth := None; material := None |}).
Proof.
  intros Hname Hm Hw Hh Ha Hlen H5 H0.
  pose proof (list_comp_length _ _ _ Ha) as Hlm. rewrite Hlen in Hlm.
  do 16 (destruct m as [|? m]; [discriminate|]).
  destruct m; [clear Hlm|discriminate].
  simpl in Ha. inv_ok. injection H5 as ->. injection H0 as ->.
  unfold parse_obj, parse_plane, np_reshape_4x4.
  rewrite Hname, Hm. simpl. rewrite Hw, Hh. simpl.
  repeat match goal with
  | H : float_of_num ?v = Ok _ |- context [float_of_num ?v] => rewrite H
  end. simpl.
  destruct (angle libm_acos _); [simpl|reflexivity].
  destruct (angle libm_acos d00); [simpl|reflexivity].
  destruct (plane_objType _ _); reflexivity.
Qed.

(** C1: the pair roll = 45, pitch = 0 is not rejected: the second branch
    accepts it as an XZRectangle, because [roll - 90.0 <= 0.01] holds for
    every roll below 90.01. Accordingly a plane rotated 45 degrees about
    X, whose [m[1][1]] is cos 45 (arc cosine 0.7853981633974483) and whose
    [m[0][0]] is 1 (arc cosine 0), is converted to an XZRectangle instead
    of raising the invalid-rotation error. *)
Theorem plane_45_0_is_accepted geometries materials y w h ms :
  libm_acos 1 = 0%float ->
  libm_acos 0.7071067811865476 = 0.7853981633974483%float ->
  geometry_param geometries tilted_plane "width" geo_width = Ok w ->
  geometry_param geometries tilted_plane "height" geo_height = Ok h ->
  lambertian materials tilted_plane = Ok ms ->
  plane_branch_of 45 0 = Branch2 /\
  plane_objType 45 0 = Ok "XZRectangle"%string /\
  loop_body libm_acos geometries materials y tilted_plane
  = Ok (world_append y
          {| objType := "XZRectangle"; center := None; radius := None;
             position := Some [NInt 0; NInt 0; NInt 0];
             width := Some w; height := Some h; depth := None;
             material := Some ms |}).
Proof.
  intros H1 H45 Hw Hh Hms.
  split; [vm_compute; reflexivity|]. split; [vm_compute; reflexivity|].
  unfold loop_body.
  rewrite (parse_plane_angles geometries y tilted_plane _
             [1; 0; 0; 0; 0; 0.7071067811865476; 0.7071067811865476; 0;
              0; -0.7071067811865476; 0.7071067811865476; 0;
              0; 0; 0; 1]%float
             w h 0.7071067811865476%float 1%float
             eq_refl eq_refl Hw Hh);
    [|vm_compute; reflexivity|reflexivity|reflexivity|reflexivity].
  unfold angle, math_acos.
  change (out_of_domain 0.7071067811865476) with false.
  change (out_of_domain 1) with false.
  cbv iota. rewrite H45, H1, Hms.
  vm_compute. reflexivity.
Qed.

(** ** Unresolved references *)

Lemma is_shape_cases name :
  is_shape name = true ->
  name = "Sphere"%string \/ name = "Plane"%string \/ name = "Box"%string.
Proof.
  unfold is_shape. intros H.
  apply orb_true_iff in H as [H|H]; [apply orb_true_iff in H as [H|H]|];
    apply String.eqb_eq in H; auto.
Qed.

Lemma parse_obj_shape geometries y obj name o :
  node_name obj = Some name -> is_shape name = true ->
  parse_obj libm_acos geometries y obj = Ok o ->
  exists new_obj, o = Built new_obj /\ material new_obj = None.
Proof.
  intros Hname Hshape. unfold parse_obj, parse_plane. rewrite Hname.
  destruct (is_shape_cases _ Hshape) as [-> | [-> | ->]]; simpl;
    intros H; inv_ok; eauto.
Qed.

Lemma for_each_raises {S A : Type} (body : S -> A -> result S)
    (pre post : list A) (x : A) (s0 s : S) (e : exn) :
  for_each body pre s0 = Ok s -> body s x = Raise e ->
  for_each body (pre ++ x :: post) s0 = Raise e.
Proof.
  intros Hpre Hx. rewrite for_each_app, Hpre. simpl. rewrite Hx. reflexivity.
Qed.

(** C9: a Sphere, Plane or Box node whose geometry id is not in the
    geometry index, once the lookup is reached, or whose material id is
    not in the material index, once the dispatch has built the object,
    makes the loop body raise [KeyError] with that id; no default geometry
    or material is substituted, and the main loop raises the same error
    when it gets to the node. *)
Theorem unresolved_reference_raises geometries materials y obj name id :
  node_name obj = Some name -> is_shape name = true ->
  (node_geometry obj = Some id /\ geometries !! id = None /\
   reaches_geometry_lookup name obj = true) \/
  (is_ok (parse_obj libm_acos geometries y obj) = true /\
   node_material obj = Some id /\ materials !! id = None) ->
  loop_body libm_acos geometries materials y obj = Raise (KeyError id) /\
  forall pre post y0,
    for_each (loop_body libm_acos geometries materials) pre y0 = Ok y ->
    for_each (loop_body libm_acos geometries materials) (pre ++ obj :: post) y0
    = Raise (KeyError id).
Proof.
  intros Hname Hshape Hcase.
  assert (loop_body libm_acos geometries materials y obj = Raise (KeyError id))
    as Hbody.
  { destruct Hcase as [(Hid & Hg & Hreach) | (Hok & Hid & Hm)].
    - unfold loop_body, parse_obj, parse_plane, geometry_param, index_get.
      rewrite Hname, Hid. unfold reaches_geometry_lookup in Hreach.
      destruct (is_shape_cases _ Hshape) as [-> | [-> | ->]]; simpl in *.
      + destruct (matrix_floats obj 12 15); [|discriminate].
        simpl. rewrite Hg. reflexivity.
      + destruct (node_matrix obj); [|discriminate].
        simpl. rewrite Hg. reflexivity.
      + destruct (matrix_floats obj 12 15); [|discriminate].
        simpl. rewrite Hg. reflexivity.
    - unfold loop_body.
      destruct (parse_obj libm_acos geometries y obj) as [o|] eqn:Hp;
        [|discriminate].
      destruct (parse_obj_shape _ _ _ _ _ Hname Hshape Hp) as (new_obj & -> & Hnone).
      simpl. rewrite Hnone. unfold lambertian, index_get.
      rewrite Hid. simpl. rewrite Hm. reflexivity. }
  split; [exact Hbody|].
  intros pre post y0 Hpre. eapply for_each_raises; eauto.
Qed.

(** ** The domain of the plane classification *)

(** C10: for a Plane node whose matrix has 16 numbers and whose width and
    height resolve, the classification completes exactly when the two
    diagonal entries [m[1][1]] and [m[0][0]] lie in [-1, 1]: if one of
    them is below -1 or above 1 the loop body raises the domain error of
    [math.acos], which is not the invalid-rotation error; otherwise both
    angles exist and the outcome is that of the branch chain. *)
Theorem plane_acos_domain geometries materials y obj m a w h d11 d00 :
  node_name obj = Some "Plane"%string ->
  node_matrix obj = Some m ->
  geometry_param geometries obj "width" geo_width = Ok w ->
  geometry_param geometries obj "height" geo_height = Ok h ->
  list_comp float_of_num m = Ok a -> length a = 16%nat ->
  a !! 5%nat = Some d11 -> a !! 0%nat = Some d00 ->
  if out_of_domain d11 || out_of_domain d00
  then loop_body libm_acos geometries materials y obj
       = Raise (ValueError "math domain error")
  else exists roll pitch,
      angle libm_acos d11 = Ok roll /\ angle libm_acos d00 = Ok pitch /\
      parse_obj libm_acos geometries y obj
      = let* ty := plane_objType roll pitch in
        Ok (Built {| objType := ty; center := None; radius := None;
                     position := Some (py_slice 12 15 m);
                     width := Some w; height := Some h;
                     depth := None; material := None |}).
Proof.
  intros Hname Hm Hw Hh Ha Hlen H5 H0.
  pose proof (parse_plane_angles _ y _ _ _ _ _ _ _ Hname Hm Hw Hh Ha Hlen H5 H0)
    as Hp.
  pose proof (angle_cases d11) as H11. pose proof (angle_cases d00) as H00.
  destruct (out_of_domain d11); simpl.
  - unfold loop_body. rewrite Hp, H11. reflexivity.
  - destruct H11 as (roll & Hroll). destruct (out_of_domain d00).
    + unfold loop_body. rewrite Hp, Hroll, H00. reflexivity.
    + destruct H00 as (pitch & Hpitch). exists roll, pitch.
      rewrite Hp, Hroll, Hpitch. auto.
Qed.

End Properties.

(** ** The theorems at the sample scenes *)

Example sample_scene_converts :
  convert_json_to_yaml acos_axis sample_scene = Ok sample_output.
Proof. vm_compute. reflexivity. Qed.

(** C8 at a document whose root is tagged Mesh. *)
Lemma not_a_scene_raises_witness :
  convert_json_to_yaml acos_axis
    {| doc_object := Some {| obj_type := Some "Mesh"%string;
                             obj_children := Some sample_children |};
       doc_geometries := Some [sample_geometry];
       doc_materials := Some [sample_material] |}
  = Raise (ValueError "JSON file is not a Three.JS JSON Scene file.").
Proof.
  apply not_a_scene_raises. right.
  eexists. split; [reflexivity|]. right.
  eexists. split; [reflexivity|]. discriminate.
Defined.

(** C4 at [sample_scene]: four children, two cameras, two world objects. *)
Lemma world_length_and_order_witness :
  length (world sample_output)
  = (length sample_children - length (List.filter is_camera sample_children))%nat /\
  exists geoarr matarr geometries materials,
    doc_geometries sample_scene = Some geoarr /\
    build_index geo_uuid geoarr = Ok geometries /\
    doc_materials sample_scene = Some matarr /\
    build_index mat_uuid matarr = Ok materials /\
    Forall2 (fun obj w => forall y0,
               loop_body acos_axis geometries materials y0 obj
               = Ok (world_append y0 w))
            (List.filter (fun obj => negb (is_camera obj)) sample_children)
            (world sample_output).
Proof.
  apply (world_length_and_order acos_axis sample_scene sample_object).
  - reflexivity.
  - reflexivity.
  - vm_compute. reflexivity.
Defined.

(** C5 at [sample_sphere]. *)
Lemma sphere_center_and_radius_witness :
  parse_obj acos_axis {["geo-1"%string := sample_geometry]}
    initial_yaml_dict sample_sphere
  = Ok (Built {| objType := "Sphere";
                 center := Some [1%float; 2.5%float; (-3)%float];
                 radius := Some 2%float; position := None; width := None;
                 height := None; depth := None; material := None |}) /\
  loop_body acos_axis {["geo-1"%string := sample_geometry]}
    {["mat-1"%string := sample_material]} initial_yaml_dict sample_sphere
  = let* ms := lambertian {["mat-1"%string := sample_material]} sample_sphere in
    Ok (world_append initial_yaml_dict (sample_sphere_object ms)).
Proof.
  apply (sphere_center_and_radius acos_axis _ _ _ sample_sphere
           (translation (NInt 1) (NFloat 2.5) (NInt (-3)))
           (NInt 1) (NFloat 2.5) (NInt (-3)) 1%float 2.5%float (-3)%float
           "geo-1"%string sample_geometry (NInt 2) 2%float);
    vm_compute; reflexivity.
Defined.

(** C6 at [sample_light], with empty indexes and no material reference. *)
Lemma point_light_object_witness :
  loop_body acos_axis ∅ ∅ initial_yaml_dict sample_light
  = Ok {| constants := default_constants;
          camera := default_camera;
          world :=
            [{| objType := "Sphere";
                center := Some [0%float; 10%float; 0%float];
                radius := Some 1%float; position := None; width := None;
                height := None; depth := None;
                material := Some
                  {| matType := "DiffuseLight"; texType := "SolidColor";
                     texture := {| albedo := [1%float; 1%float; 1%float] |};
                     intensity := Some 25%float |} |}] |}.
Proof.
  apply (point_light_object acos_axis ∅ ∅ initial_yaml_dict sample_light
           (translation (NInt 0) (NInt 10) (NInt 0))
           (NInt 0) (NInt 10) (NInt 0) 0%float 10%float 0%float
           (NFloat 2.5) 2.5%float);
    vm_compute; reflexivity.
Defined.

(** C7 at [sample_scene]: the second camera wins. *)
Lemma one_camera_block_witness :
  camera_from default_camera (sample_camera 8 40) (camera sample_output) /\
  length (world sample_output) = 2%nat.
Proof.
  apply (one_camera_block acos_axis sample_scene sample_object sample_children).
  - reflexivity.
  - reflexivity.
  - vm_compute. reflexivity.
Defined.

(** C9 at a sphere with an unknown geometry and a box with an unknown
    material. *)
Lemma unresolved_reference_raises_witness :
  (loop_body acos_axis ∅ {["mat-1"%string := sample_material]}
     initial_yaml_dict dangling_sphere
   = Raise (KeyError "geo-9")) /\
  (loop_body acos_axis {["geo-1"%string := sample_geometry]} ∅
     initial_yaml_dict dangling_box
   = Raise (KeyError "mat-9")).
Proof.
  split.
  - apply (unresolved_reference_raises acos_axis ∅
             {["mat-1"%string := sample_material]} initial_yaml_dict
             dangling_sphere "Sphere" "geo-9").
    + reflexivity.
    + reflexivity.
    + left. repeat split; vm_compute; reflexivity.
  - apply (unresolved_reference_raises acos_axis
             {["geo-1"%string := sample_geometry]} ∅ initial_yaml_dict
             dangling_box "Box" "mat-9").
    + reflexivity.
    + reflexivity.
    + right. repeat split; vm_compute; reflexivity.
Defined.

(** C3, amended, at the angle of a plane rotated 90 degrees about Z. *)
Lemma fourth_branch_near_90_witness :
  plane_branch_of 90.00003218077504 90.00003218077504 = Branch4 /\
  plane_objType 90.00003218077504 90.00003218077504
  = Ok "YZRectangle"%string.
Proof.
  apply (fourth_branch_near_90 90.00003218077504 90.00003218077504);
    vm_compute; reflexivity.
Defined.

(** C1 at [tilted_plane] with the sample indexes. *)
Lemma plane_45_0_is_accepted_witness :
  plane_branch_of 45 0 = Branch2 /\
  plane_objType 45 0 = Ok "XZRectangle"%string /\
  loop_body acos_axis {["geo-1"%string := sample_geometry]}
    {["mat-1"%string := sample_material]} initial_yaml_dict tilted_plane
  = Ok (world_append initial_yaml_dict
          {| objType := "XZRectangle"; center := None; radius := None;
             position := Some [NInt 0; NInt 0; NInt 0];
             width := Some 4%float; height := Some 3%float; depth := None;
             material := Some
               {| matType := "Lambertian"; texType := "SolidColor";
                  texture :=
                    {| albedo := [1%float; (128 / 255)%float; 0%float] |};
                  intensity := None |} |}).
Proof.
  apply (plane_45_0_is_accepted acos_axis); vm_compute; reflexivity.
Defined.

(** C10 at [scaled_plane], whose [m[1][1]] is 2. *)
Lemma plane_acos_domain_witness :
  loop_body acos_axis {["geo-1"%string := sample_geometry]}
    {["mat-1"%string := sample_material]} initial_yaml_dict scaled_plane
  = Raise (ValueError "math domain error").
Proof.
  apply (plane_acos_domain acos_axis {["geo-1"%string := sample_geometry]}
           {["mat-1"%string := sample_material]} initial_yaml_dict scaled_plane
           [NInt 1; NInt 0; NInt 0; NInt 0;
            NInt 0; NInt 2; NInt 0; NInt 0;
            NInt 0; NInt 0; NInt 1; NInt 0;
            NInt 0; NInt 0; NInt 0; NInt 1]
           [1; 0; 0; 0; 0; 2; 0; 0; 0; 0; 1; 0; 0; 0; 0; 1]%float
           4%float 3%float 2%float 1%float);
    vm_compute; reflexivity.
Defined.

(** Without a camera child the camera block is the default one. *)
Example no_camera_keeps_default :
  camera <$> (match convert_json_to_yaml acos_axis
                      {| doc_object :=
                           Some {| obj_type := Some "Scene"%string;
                                   obj_children := Some [sample_sphere; sample_light] |};
                         doc_geometries := Some [sample_geometry];
                         doc_materials := Some [sample_material] |}
              with Ok out => Some out | Raise _ => None end)
  = Some default_camera.
Proof. vm_compute. reflexivity. Qed.

(** * Further properties *)

(** ** Index builder *)

Lemma index_loop_lookup {A : Type} (uuid : A -> option string) (arr : list A)
    (acc index : gmap string A) (id : string) :
  for_each
    (fun index record =>
       let* id := dict_get "uuid" (uuid record) in
       Ok (<[id := record]> index))
    arr acc = Ok index ->
  index !! id = match last (List.filter (has_uuid uuid id) arr) with
                | Some record => Some record
                | None => acc !! id
                end.
Proof.
  revert acc. induction arr as [|record arr IH]; intros acc H.
  - injection H as <-. reflexivity.
  - simpl in H. apply bind_ok in H as (acc' & Hstep & Hrest).
    apply bind_ok in Hstep as (u & Hu & [= <-]).
    rewrite (IH _ Hrest), last_filter_cons. clear IH Hrest.
    destruct (last (List.filter (has_uuid uuid id) arr)); [reflexivity|].
    unfold has_uuid. destruct (uuid record) as [u'|]; [|discriminate].
    injection Hu as ->.
    destruct (String.eqb u id) eqn:E.
    + apply String.eqb_eq in E. subst u. apply lookup_insert_eq.
    + apply String.eqb_neq in E. apply lookup_insert_ne. exact E.
Qed.

(** X1: in a built index, looking up an id gives the last record of the
    input list that carries this uuid (a later duplicate overwrites an
    earlier one), and nothing when no record carries it. *)
Theorem build_index_last_wins {A : Type} (uuid : A -> option string)
    (arr : list A) (index : gmap string A) (id : string) :
  build_index uuid arr = Ok index ->
  index !! id = last (List.filter (has_uuid uuid id) arr).
Proof.
  intros H. unfold build_index in H.
  rewrite (index_loop_lookup _ _ _ _ id H).
  destruct (last _); [reflexivity | apply lookup_empty].
Qed.

(** X2: the index is built exactly when every record has a uuid; a record
    without one makes the builder raise [KeyError('uuid')], whatever the
    other records are. *)
Theorem build_index_needs_uuids {A : Type} (uuid : A -> option string)
    (arr : list A) :
  if forallb (keyed uuid) arr
  then is_ok (build_index uuid arr) = true
  else build_index uuid arr = Raise (KeyError "uuid").
Proof.
  unfold build_index. generalize (∅ : gmap string A).
  induction arr as [|record arr IH]; intros acc; [reflexivity|].
  simpl. unfold keyed at 1. destruct (uuid record) as [u|]; simpl.
  - apply IH.
  - reflexivity.
Qed.

Lemma build_index_keyed {A : Type} (uuid : A -> option string) (arr : list A) :
  forallb (keyed uuid) arr = true -> exists index, build_index uuid arr = Ok index.
Proof.
  unfold build_index. generalize (∅ : gmap string A).
  induction arr as [|record arr IH]; intros acc H; simpl; [eauto|].
  simpl in H. apply andb_true_iff in H as [Hk H].
  unfold keyed in Hk. destruct (uuid record); [|discriminate].
  simpl. apply IH, H.
Qed.

Section Further.

Variable libm_acos : float -> float.

(** ** The dispatch on the node name *)

(** X3: a node whose name is none of Sphere, Plane, Box, PerspectiveCamera
    and PointLight (the comparison is case sensitive) makes the loop body
    raise the unknown-object-type error, before its matrix, geometry or
    material is read. *)
Theorem unknown_tag_raises geometries materials y obj name :
  node_name obj = Some name -> known_tag name = false ->
  loop_body libm_acos geometries materials y obj
  = Raise (ValueError "Unknown object type.").
Proof.
  intros Hname Hk. unfold known_tag, is_shape in Hk.
  repeat (apply orb_false_iff in Hk as [Hk ?]).
  unfold loop_body, parse_obj. rewrite Hname. simpl.
  repeat match goal with E : String.eqb name _ = false |- _ =>
    rewrite E; clear E end.
  reflexivity.
Qed.

(** ** The conversion as a whole *)

Lemma convert_loop json_dict o geoarr matarr geometries materials objs :
  doc_object json_dict = Some o -> obj_type o = Some "Scene"%string ->
  doc_geometries json_dict = Some geoarr ->
  build_index geo_uuid geoarr = Ok geometries ->
  doc_materials json_dict = Some matarr ->
  build_index mat_uuid matarr = Ok materials ->
  obj_children o = Some objs ->
  convert_json_to_yaml libm_acos json_dict
  = for_each (loop_body libm_acos geometries materials) objs initial_yaml_dict.
Proof.
  intros Ho Ht Hga Hg Hma Hm Hobjs.
  unfold convert_json_to_yaml, not_a_scene.
  rewrite Ho, Ht, Hga. simpl. rewrite Hg. simpl. rewrite Hma. simpl.
  rewrite Hm. simpl. rewrite Hobjs. reflexivity.
Qed.

(** X4: the render constants of a converted scene are the fixed defaults,
    and so are the camera's vup, aspectRatio and aperture: no input
    changes them. *)
Theorem constants_are_fixed json_dict out :
  convert_json_to_yaml libm_acos json_dict = Ok out ->
  constants out = default_constants /\
  vup (camera out) = [0%float; 1%float; 0%float] /\
  aspectRatio (camera out) = 1%float /\
  aperture (camera out) = 0.1%float.
Proof.
  intros H.
  assert (exists o objs, doc_object json_dict = Some o /\
                         obj_children o = Some objs) as (o & objs & Ho & Hobjs).
  { unfold convert_json_to_yaml in H.
    destruct (not_a_scene json_dict); [discriminate|].
    inv_ok. destruct (doc_object json_dict) as [o|]; [|discriminate].
    destruct (obj_children o) as [objs|] eqn:E; eauto.
    match goal with X : dict_get "object" _ = _ |- _ =>
      injection X as <- end.
    rewrite E in *. discriminate. }
  destruct (convert_ok _ _ _ _ _ Ho Hobjs H)
    as (geoarr & matarr & geometries & materials & _ & _ & _ & _ & Hloop).
  destruct (main_loop _ _ _ _ _ _ Hloop) as (Hc & _ & Hcam).
  split; [exact Hc|].
  destruct (last (List.filter is_camera objs)).
  - destruct Hcam as (_ & _ & _ & _ & -> & -> & ->). auto.
  - rewrite Hcam. auto.
Qed.

(** X5: the top-level lists are read in the order geometries, materials,
    children. A Scene document without [geometries] raises
    [KeyError('geometries')]; with an index of geometries but without
    [materials] it raises [KeyError('materials')]; with both indexes but
    without [children] it raises [KeyError('children')]. The first two
    hold whatever the children are, also when no child needs a geometry or
    a material. *)
Theorem missing_top_level_key json_dict key :
  not_a_scene json_dict = false ->
  (doc_geometries json_dict = None /\ key = "geometries"%string) \/
  (exists geoarr,
     doc_geometries json_dict = Some geoarr /\
     is_ok (build_index geo_uuid geoarr) = true /\
     doc_materials json_dict = None /\ key = "materials"%string) \/
  (exists geoarr matarr o,
     doc_geometries json_dict = Some geoarr /\
     is_ok (build_index geo_uuid geoarr) = true /\
     doc_materials json_dict = Some matarr /\
     is_ok (build_index mat_uuid matarr) = true /\
     doc_object json_dict = Some o /\ obj_children o = None /\
     key = "children"%string) ->
  convert_json_to_yaml libm_acos json_dict = Raise (KeyError key).
Proof.
  intros Hscene H. unfold convert_json_to_yaml. rewrite Hscene.
  destruct H as [(Hg & ->) | [(geoarr & Hga & Hg & Hm & ->)
                             | (geoarr & matarr & o & Hga & Hg & Hma & Hm & Ho & Hc & ->)]].
  - rewrite Hg. reflexivity.
  - rewrite Hga. simpl.
    destruct (build_index geo_uuid geoarr); [|discriminate].
    simpl. rewrite Hm. reflexivity.
  - rewrite Hga. simpl.
    destruct (build_index geo_uuid geoarr); [|discriminate].
    simpl. rewrite Hma. simpl.
    destruct (build_index mat_uuid matarr); [|discriminate].
    simpl. rewrite Ho. simpl. rewrite Hc. reflexivity.
Qed.

(** X6: a Scene with an empty list of children converts to the output
    with the default constants, the default camera and an empty world,
    provided every geometry and material record has a uuid. *)
Theorem empty_scene_is_default json_dict o geoarr matarr :
  doc_object json_dict = Some o -> obj_type o = Some "Scene"%string ->
  obj_children o = Some [] ->
  doc_geometries json_dict = Some geoarr ->
  forallb (keyed geo_uuid) geoarr = true ->
  doc_materials json_dict = Some matarr ->
  forallb (keyed mat_uuid) matarr = true ->
  convert_json_to_yaml libm_acos json_dict = Ok initial_yaml_dict.
Proof.
  intros Ho Ht Hc Hga Hg Hma Hm.
  pose proof (build_index_keyed geo_uuid geoarr Hg) as (geometries & Hgi).
  pose proof (build_index_keyed mat_uuid matarr Hm) as (materials & Hmi).
  rewrite (convert_loop _ _ _ _ _ _ _ Ho Ht Hga Hgi Hma Hmi Hc).
  reflexivity.
Qed.

(** X7: conversion is all or nothing and stops at the first failing
    child: when the children before [obj] convert and the loop body
    raises [e] on [obj], the conversion raises [e], whatever the children
    after [obj] are. *)
Theorem first_failing_child json_dict o geoarr matarr geometries materials
    pre obj post y e :
  doc_object json_dict = Some o -> obj_type o = Some "Scene"%string ->
  doc_geometries json_dict = Some geoarr ->
  build_index geo_uuid geoarr = Ok geometries ->
  doc_materials json_dict = Some matarr ->
  build_index mat_uuid matarr = Ok materials ->
  obj_children o = Some (pre ++ obj :: post) ->
  for_each (loop_body libm_acos geometries materials) pre initial_yaml_dict
  = Ok y ->
  loop_body libm_acos geometries materials y obj = Raise e ->
  convert_json_to_yaml libm_acos json_dict = Raise e.
Proof.
  intros Ho Ht Hga Hg Hma Hm Hobjs Hpre He.
  rewrite (convert_loop _ _ _ _ _ _ _ Ho Ht Hga Hg Hma Hm Hobjs).
  eapply for_each_raises; eassumption.
Qed.

(** ** The shape branches *)

(** X8: a Box node whose matrix holds [tx], [ty], [tz] at offsets 12, 13,
    14 and whose geometry resolves gets the position
    [[float(tx), float(ty), float(tz)]] and the float casts of the
    geometry's width, height and depth; the material step adds the
    Lambertian material and changes nothing else. *)
Theorem box_object geometries materials y obj
    m tx ty tz c0 c1 c2 id g wv hv dv w h d :
  node_name obj = Some "Box"%string ->
  node_matrix obj = Some m ->
  m !! 12%nat = Some tx -> m !! 13%nat = Some ty -> m !! 14%nat = Some tz ->
  float_of_num tx = Ok c0 -> float_of_num ty = Ok c1 ->
  float_of_num tz = Ok c2 ->
  node_geometry obj = Some id -> geometries !! id = Some g ->
  geo_width g = Some wv -> float_of_num wv = Ok w ->
  geo_height g = Some hv -> float_of_num hv = Ok h ->
  geo_depth g = Some dv -> float_of_num dv = Ok d ->
  loop_body libm_acos geometries materials y obj
  = let* ms := lambertian materials obj in
    Ok (world_append y
          {| objType := "Box"; center := None; radius := None;
             position := Some [NFloat c0; NFloat c1; NFloat c2];
             width := Some w; height := Some h; depth := Some d;
             material := Some ms |}).
Proof.
  intros Hname Hm H12 H13 H14 Hc0 Hc1 Hc2 Hid Hg Hwv Hw Hhv Hh Hdv Hd.
  unfold loop_body, parse_obj, matrix_floats, geometry_param, index_get.
  rewrite Hname, Hm, Hid. simpl.
  rewrite (py_slice_12_15 _ _ _ _ H12 H13 H14). simpl.
  rewrite Hc0, Hc1, Hc2, Hg. simpl.
  rewrite Hwv, Hhv, Hdv. simpl. rewrite Hw, Hh, Hd. simpl.
  destruct (lambertian materials obj); reflexivity.
Qed.

(** X9: the translation of a Sphere is read without a bounds check: when
    a Sphere node is accepted, its center holds the float casts of
    [matrix[12:15]], which has [min(3, len(matrix) - 12)] elements, so a
    matrix shorter than 15 numbers gives a center with fewer than three
    coordinates instead of an error. *)
Theorem sphere_center_is_clipped geometries y obj m new_obj :
  node_name obj = Some "Sphere"%string ->
  node_matrix obj = Some m ->
  parse_obj libm_acos geometries y obj = Ok (Built new_obj) ->
  exists c, center new_obj = Some c /\
            list_comp float_of_num (py_slice 12 15 m) = Ok c /\
            length c = Nat.min 3 (length m - 12).
Proof.
  intros Hname Hm H. unfold parse_obj, matrix_floats in H.
  rewrite Hname, Hm in H. simpl in H. inv_ok.
  eexists. split; [reflexivity|]. split; [eassumption|].
  erewrite list_comp_length by eassumption.
  unfold py_slice. rewrite length_take, length_drop. reflexivity.
Qed.

(** ** The Plane branch *)

(** X10: a Plane node is the only one whose matrix length is checked: if
    the matrix does not hold exactly 16 numbers (and the width and height
    resolve), the loop body raises the reshape error of numpy, naming the
    actual size. *)
Theorem plane_needs_16_numbers geometries materials y obj m a w h :
  node_name obj = Some "Plane"%string ->
  node_matrix obj = Some m ->
  geometry_param geometries obj "width" geo_width = Ok w ->
  geometry_param geometries obj "height" geo_height = Ok h ->
  list_comp float_of_num m = Ok a -> length a <> 16%nat ->
  loop_body libm_acos geometries materials y obj
  = Raise (ValueError ("cannot reshape array of size " +:+ pretty (length a)
                       +:+ " into shape (4,4)")).
Proof.
  intros Hname Hm Hw Hh Ha Hlen.
  rewrite (list_comp_length _ _ _ Ha) in *.
  unfold loop_body, parse_obj, parse_plane, np_reshape_4x4.
  rewrite Hname, Hm. simpl. rewrite Hw, Hh. simpl.
  apply Nat.eqb_neq in Hlen. rewrite Hlen. reflexivity.
Qed.

Lemma angle_of_one :
  libm_acos 1 = 0%float -> angle libm_acos 1 = Ok 0%float.
Proof.
  intros H. unfold angle, math_acos.
  change (out_of_domain 1) with false. cbv iota. rewrite H.
  vm_compute. reflexivity.
Qed.

Lemma angle_of_zero :
  libm_acos 0 = 1.5707963267948966%float ->
  angle libm_acos 0 = Ok 90.00003218077504%float.
Proof.
  intros H. unfold angle, math_acos.
  change (out_of_domain 0) with false. cbv iota. rewrite H.
  vm_compute. reflexivity.
Qed.

(** X11: with the arc cosines of 1 and 0 as the C library returns them, a
    Plane node whose diagonal entries [m[1][1]] and [m[0][0]] are each 1
    or 0 is classified by the table: (1, 1) XYRectangle, (0, 1)
    XZRectangle, (1, 0) and (0, 0) YZRectangle. Its position is
    [matrix[12:15]] as it stands (integers are not cast), its width and
    height are the float casts of the geometry's. *)
Theorem axis_aligned_planes geometries materials y obj m a w h d11 d00 ms :
  libm_acos 1 = 0%float -> libm_acos 0 = 1.5707963267948966%float ->
  node_name obj = Some "Plane"%string ->
  node_matrix obj = Some m ->
  geometry_param geometries obj "width" geo_width = Ok w ->
  geometry_param geometries obj "height" geo_height = Ok h ->
  list_comp float_of_num m = Ok a -> length a = 16%nat ->
  a !! 5%nat = Some d11 -> a !! 0%nat = Some d00 ->
  d11 = 1%float \/ d11 = 0%float -> d00 = 1%float \/ d00 = 0%float ->
  lambertian materials obj = Ok ms ->
  loop_body libm_acos geometries materials y obj
  = Ok (world_append y
          {| objType :=
               if PrimFloat.eqb d11 1
               then if PrimFloat.eqb d00 1 then "XYRectangle" else "YZRectangle"
               else if PrimFloat.eqb d00 1 then "XZRectangle" else "YZRectangle";
             center := None; radius := None;
             position := Some (py_slice 12 15 m);
             width := Some w; height := Some h; depth := None;
             material := Some ms |}).
Proof.
  intros H1 H0 Hname Hm Hw Hh Ha Hlen H5 H00 Hd11 Hd00 Hms.
  unfold loop_body.
  rewrite (parse_plane_angles libm_acos geometries y obj m a w h d11 d00
             Hname Hm Hw Hh Ha Hlen H5 H00).
  pose proof (angle_of_one H1) as A1. pose proof (angle_of_zero H0) as A0.
  destruct Hd11 as [-> | ->], Hd00 as [-> | ->];
    rewrite ?A1, ?A0; cbv [bind];
    [ change (plane_objType 0 0) with (Ok "XYRectangle"%string)
    | change (plane_objType 0 90.00003218077504)
        with (Ok "YZRectangle"%string)
    | change (plane_objType 90.00003218077504 0)
        with (Ok "XZRectangle"%string)
    | change (plane_objType 90.00003218077504 90.00003218077504)
        with (Ok "YZRectangle"%string) ];
    cbv iota beta; simpl material; rewrite Hms; reflexivity.
Qed.

End Further.

(** ** The material resolver on the whole range of colors *)

Lemma forall_bytes (P : Z -> bool) :
  forallb P (map Z.of_nat (seq 0 256)) = true ->
  forall c, 0 <= c <= 255 -> P c = true.
Proof.
  intros H c Hc. rewrite forallb_forall in H. apply H.
  rewrite <- (Z2Nat.id c) by lia. apply in_map, in_seq. lia.
Qed.

Lemma hex_digit_hexchar (d : Z) :
  0 <= d < 16 -> hex_digit (hexchar d) = Some d.
Proof.
  intros Hd. destruct d as [|p|p]; [reflexivity| |lia].
  do 4 (try destruct p as [p|p|]); try lia; reflexivity.
Qed.

Lemma raw_of_pos_small (p : positive) (rest : string) :
  Zpos p < 16 ->
  HexString.Raw.of_pos p rest = String (hexchar (Zpos p)) rest.
Proof.
  intros Hp. do 4 (try destruct p as [p|p|]); try lia; reflexivity.
Qed.

Lemma raw_of_pos_step (p : positive) (rest : string) :
  16 <= Zpos p ->
  exists p', Zpos p / 16 = Zpos p' /\
    HexString.Raw.of_pos p rest
    = HexString.Raw.of_pos p' (String (hexchar (Zpos p mod 16)) rest).
Proof.
  intros Hp.
  do 4 (try destruct p as [p|p|]); try lia; exists p;
    match goal with
    | |- Z.pos ?q / 16 = _ /\ _ =>
        let d := eval vm_compute in
          (Zpos (match q with
                 | (_~0~0~0~0)%positive => 16 | (_~0~0~0~1)%positive => 17
                 | (_~0~0~1~0)%positive => 18 | (_~0~0~1~1)%positive => 19
                 | (_~0~1~0~0)%positive => 20 | (_~0~1~0~1)%positive => 21
                 | (_~0~1~1~0)%positive => 22 | (_~0~1~1~1)%positive => 23
                 | (_~1~0~0~0)%positive => 24 | (_~1~0~0~1)%positive => 25
                 | (_~1~0~1~0)%positive => 26 | (_~1~0~1~1)%positive => 27
                 | (_~1~1~0~0)%positive => 28 | (_~1~1~0~1)%positive => 29
                 | (_~1~1~1~0)%positive => 30 | (_~1~1~1~1)%positive => 31
                 | _ => 1
                 end)%positive - 16) in
        assert (Z.pos q = 16 * Z.pos p + d) as E by lia;
        assert (Z.pos q / 16 = Z.pos p /\ Z.pos q mod 16 = d) as [E1 E2]
          by (rewrite E; split;
              [ symmetry; apply (Z.div_unique _ 16 _ d); lia
              | symmetry; apply (Z.mod_unique _ 16 (Z.pos p) d); lia ]);
        rewrite E1, E2; split; reflexivity
    end.
Qed.

Lemma raw_of_pos_digits (n : nat) (p : positive) (rest : string) :
  16 ^ Z.of_nat n <= Zpos p < 16 ^ Z.of_nat (S n) ->
  HexString.Raw.of_pos p rest = hex_string_of (S n) (Zpos p) rest.
Proof.
  revert p rest. induction n as [|n IH]; intros p rest Hp.
  - change (16 ^ Z.of_nat 0) with 1 in Hp.
    change (16 ^ Z.of_nat 1) with 16 in Hp.
    simpl. rewrite Z.mod_small by lia. apply raw_of_pos_small. lia.
  - rewrite !Nat2Z.inj_succ, !Z.pow_succ_r in Hp by lia.
    assert (0 < 16 ^ Z.of_nat n) by (apply Z.pow_pos_nonneg; lia).
    destruct (raw_of_pos_step p rest) as (p' & Hdiv & ->); [lia|].
    rewrite IH.
    + change (hex_string_of (S (S n)) (Z.pos p) rest)
        with (hex_string_of (S n) (Z.pos p / 16)
                (String (hexchar (Z.pos p mod 16)) rest)).
      rewrite Hdiv. reflexivity.
    + rewrite Nat2Z.inj_succ, Z.pow_succ_r by lia. rewrite <- Hdiv.
      split.
      * apply Z.div_le_lower_bound; lia.
      * apply Z.div_lt_upper_bound; lia.
Qed.

Lemma int16_two_digits (a b : Z) :
  0 <= a < 16 -> 0 <= b < 16 ->
  int16 (String (hexchar a) (String (hexchar b) EmptyString)) = Ok (16 * a + b).
Proof.
  intros Ha Hb. unfold int16. simpl.
  rewrite (hex_digit_hexchar a Ha), (hex_digit_hexchar b Hb).
  f_equal; lia.
Qed.

Lemma int16_one_digit (a : Z) :
  0 <= a < 16 -> int16 (String (hexchar a) EmptyString) = Ok a.
Proof.
  intros Ha. unfold int16. simpl. rewrite (hex_digit_hexchar a Ha). reflexivity.
Qed.

Lemma substring_all (t : string) : substring 0 (String.length t) t = t.
Proof. induction t as [|c t IH]; simpl; [reflexivity | f_equal; exact IH]. Qed.

Lemma hex_of_positive (n : nat) (color : Z) :
  16 ^ Z.of_nat n <= color < 16 ^ Z.of_nat (S n) ->
  str_from 2 (hex color) = hex_string_of (S n) color EmptyString.
Proof.
  intros Hc.
  assert (0 < 16 ^ Z.of_nat n) by (apply Z.pow_pos_nonneg; lia).
  destruct color as [|p|p]; try lia.
  unfold hex, HexString.of_Z, HexString.of_pos.
  rewrite (raw_of_pos_digits n p EmptyString Hc).
  generalize (hex_string_of (S n) (Z.pos p) EmptyString). intros t.
  unfold str_from. simpl. rewrite Nat.sub_0_r. apply substring_all.
Qed.

(** X12: a color with six hex digits (0x100000 to 0xFFFFFF) is split into
    its three bytes: the integers parsed are [color // 65536],
    [color // 256 % 256] and [color % 256], and the albedo holds their
    three quotients by 255.0, each between 0.0 and 1.0. *)
Theorem six_digit_color (color : Z) :
  1048576 <= color <= 16777215 ->
  rgb_of_color color
  = Ok [color / 65536; color / 256 mod 256; color mod 256] /\
  exists fr fg fb,
    albedo_of_color color = Ok [fr; fg; fb] /\
    channel (color / 65536) = Ok fr /\
    channel (color / 256 mod 256) = Ok fg /\
    channel (color mod 256) = Ok fb /\
    Forall (fun f => PrimFloat.leb 0 f && PrimFloat.leb f 1 = true) [fr; fg; fb].
Proof.
  intros Hc.
  assert (rgb_of_color color
          = Ok [color / 65536; color / 256 mod 256; color mod 256]) as Hrgb.
  { unfold rgb_of_color. rewrite (hex_of_positive 5 color) by (simpl; lia).
    cbn [hex_string_of].
    set (d0 := color mod 16). set (q1 := color / 16).
    set (d1 := q1 mod 16). set (q2 := q1 / 16).
    set (d2 := q2 mod 16). set (q3 := q2 / 16).
    set (d3 := q3 mod 16). set (q4 := q3 / 16).
    set (d4 := q4 mod 16). set (q5 := q4 / 16).
    set (d5 := q5 mod 16).
    assert (0 <= d0 < 16 /\ 0 <= d1 < 16 /\ 0 <= d2 < 16 /\
            0 <= d3 < 16 /\ 0 <= d4 < 16 /\ 0 <= d5 < 16)
      as (B0 & B1 & B2 & B3 & B4 & B5)
      by (repeat split; apply Z.mod_pos_bound; lia).
    cbn -[hexchar Z.mul Z.add int16].
    rewrite (int16_two_digits d5 d4 B5 B4), (int16_two_digits d3 d2 B3 B2),
      (int16_two_digits d1 d0 B1 B0).
    cbn [bind].
    assert (16 * d5 + d4 = color / 65536) as ->
      by (subst d0 d1 d2 d3 d4 d5 q1 q2 q3 q4 q5; Z.div_mod_to_equations; lia).
    assert (16 * d3 + d2 = color / 256 mod 256) as ->
      by (subst d0 d1 d2 d3 d4 d5 q1 q2 q3 q4 q5; Z.div_mod_to_equations; lia).
    assert (16 * d1 + d0 = color mod 256) as ->
      by (subst d0 d1 d2 d3 d4 d5 q1 q2 q3 q4 q5; Z.div_mod_to_equations; lia).
    reflexivity. }
  split; [exact Hrgb|].
  assert (forall c, 0 <= c <= 255 -> exists f,
            channel c = Ok f /\ PrimFloat.leb 0 f && PrimFloat.leb f 1 = true)
    as Hch.
  { intros c Hcb.
    pose proof (forall_bytes channel_in_unit) as Hb.
    specialize (Hb ltac:(vm_compute; reflexivity) c Hcb).
    unfold channel_in_unit in Hb. destruct (channel c) as [f|]; [eauto|discriminate]. }
  destruct (Hch (color / 65536)) as (fr & Hfr & Ur);
    [Z.div_mod_to_equations; lia|].
  destruct (Hch (color / 256 mod 256)) as (fg & Hfg & Ug);
    [Z.div_mod_to_equations; lia|].
  destruct (Hch (color mod 256)) as (fb & Hfb & Ub);
    [Z.div_mod_to_equations; lia|].
  exists fr, fg, fb. unfold albedo_of_color. rewrite Hrgb.
  cbn [bind list_comp]. rewrite Hfr, Hfg, Hfb. cbn [bind].
  repeat split; auto.
Qed.

(** X13: every color from 0 to 255, that is every color whose red and
    green bytes are zero (pure blues and black), makes the resolver
    raise: its hex string has one or two digits, the chunk length is 0
    and [range] refuses the zero step. *)
Theorem short_color_raises (color : Z) :
  0 <= color <= 255 ->
  albedo_of_color color = Raise (ValueError "range() arg 3 must not be zero").
Proof.
  intros Hc.
  pose proof (forall_bytes raises_zero_step ltac:(vm_compute; reflexivity)
                color Hc) as H.
  unfold raises_zero_step in H.
  destruct (albedo_of_color color) as [|[msg| | | |]]; try discriminate.
  apply String.eqb_eq in H. subst msg. reflexivity.
Qed.

(** X14: a color with three, four or five hex digits (0x100 to 0xFFFFF,
    any color whose red byte is below 16) is not split into bytes: the
    chunk length is 1, so the integers parsed are its hex digits, three,
    four or five of them. *)
Theorem mid_color_is_split_into_digits (color : Z) :
  256 <= color <= 1048575 ->
  rgb_of_color color
  = Ok (if color <? 4096 then
          [color / 256; color / 16 mod 16; color mod 16]
        else if color <? 65536 then
          [color / 4096; color / 256 mod 16; color / 16 mod 16; color mod 16]
        else
          [color / 65536; color / 4096 mod 16; color / 256 mod 16;
           color / 16 mod 16; color mod 16]).
Proof.
  intros Hc. unfold rgb_of_color.
  set (d0 := color mod 16). set (q1 := color / 16).
  set (d1 := q1 mod 16). set (q2 := q1 / 16).
  set (d2 := q2 mod 16). set (q3 := q2 / 16).
  set (d3 := q3 mod 16). set (q4 := q3 / 16).
  set (d4 := q4 mod 16).
  assert (0 <= d0 < 16 /\ 0 <= d1 < 16 /\ 0 <= d2 < 16 /\
          0 <= d3 < 16 /\ 0 <= d4 < 16)
    as (B0 & B1 & B2 & B3 & B4)
    by (repeat split; apply Z.mod_pos_bound; lia).
  assert (d1 = color / 16 mod 16 /\ d2 = color / 256 mod 16 /\
          d3 = color / 4096 mod 16 /\ d4 = color / 65536 mod 16)
    as (E1 & E2 & E3 & E4)
    by (subst d1 d2 d3 d4 q1 q2 q3 q4; repeat split;
        Z.div_mod_to_equations; lia).
  destruct (color <? 4096) eqn:L3; [|destruct (color <? 65536) eqn:L4].
  - apply Z.ltb_lt in L3.
    rewrite (hex_of_positive 2 color) by (simpl; lia).
    cbn -[hexchar Z.mul Z.add int16]. fold d0 q1 d1 q2 d2.
    rewrite (int16_one_digit d2 B2), (int16_one_digit d1 B1),
      (int16_one_digit d0 B0).
    cbn [bind]. rewrite <- ?E1.
    replace (color / 256) with d2
      by (subst d2 q2 q1; Z.div_mod_to_equations; lia).
    reflexivity.
  - apply Z.ltb_ge in L3. apply Z.ltb_lt in L4.
    rewrite (hex_of_positive 3 color) by (simpl; lia).
    cbn -[hexchar Z.mul Z.add int16]. fold d0 q1 d1 q2 d2 q3 d3.
    rewrite (int16_one_digit d3 B3), (int16_one_digit d2 B2),
      (int16_one_digit d1 B1), (int16_one_digit d0 B0).
    cbn [bind]. rewrite <- ?E1, <- ?E2.
    replace (color / 4096) with d3
      by (subst d3 q3 q2 q1; Z.div_mod_to_equations; lia).
    reflexivity.
  - apply Z.ltb_ge in L3. apply Z.ltb_ge in L4.
    rewrite (hex_of_positive 4 color) by (simpl; lia).
    cbn -[hexchar Z.mul Z.add int16]. fold d0 q1 d1 q2 d2 q3 d3 q4 d4.
    rewrite (int16_one_digit d4 B4), (int16_one_digit d3 B3),
      (int16_one_digit d2 B2), (int16_one_digit d1 B1),
      (int16_one_digit d0 B0).
    cbn [bind]. rewrite <- ?E1, <- ?E2, <- ?E3.
    replace (color / 65536) with d4
      by (subst d4 q4 q3 q2 q1; Z.div_mod_to_equations; lia).
    reflexivity.
Qed.

(** X15: a negative color always makes the resolver raise a
    [ValueError]: [hex] puts the sign first, so [hex(color)[2:]] starts
    with the letter x, and either the chunk length is 0 or the first
    chunk is no hex literal. *)
Theorem negative_color_raises (color : Z) :
  color < 0 -> exists msg, albedo_of_color color = Raise (ValueError msg).
Proof.
  intros Hc. destruct color as [|p|p]; try lia. clear Hc.
  unfold albedo_of_color, rgb_of_color, hex, HexString.of_Z, HexString.of_pos.
  set (raw := HexString.Raw.of_pos p EmptyString).
  assert (str_from 2 (String "-" (String "0" (String "x" raw)))
          = String "x" raw) as ->.
  { unfold str_from. simpl. f_equal. apply substring_all. }
  set (n := String.length (String "x" raw)).
  assert (1 <= n)%nat as Hn by (subst n; simpl; lia).
  unfold py_range. destruct (n / 3)%nat as [|k] eqn:Hk; [simpl; eauto|].
  destruct ((n + S k - 1) / S k)%nat as [|count] eqn:Hcount.
  - apply Nat.div_small_iff in Hcount; lia.
  - simpl. unfold int16. simpl. eauto.
Qed.

(** ** The shape of the output *)

Section Output.

Variable libm_acos : float -> float.

Lemma lambertian_well_formed materials obj ms :
  lambertian materials obj = Ok ms -> material_well_formed ms = true.
Proof. unfold lambertian. intros H. inv_ok. reflexivity. Qed.

Lemma plane_objType_cases roll pitch ty :
  plane_objType roll pitch = Ok ty ->
  ty = "XYRectangle"%string \/ ty = "XZRectangle"%string
  \/ ty = "YZRectangle"%string.
Proof.
  unfold plane_objType.
  destruct (plane_branch_of roll pitch); simpl; intros [= <-]; auto.
Qed.

Lemma loop_body_emits_well_formed geometries materials y y' obj :
  is_camera obj = false ->
  loop_body libm_acos geometries materials y obj = Ok y' ->
  exists w, y' = world_append y w /\ object_well_formed w = true.
Proof.
  intros Hcam H. unfold loop_body in H.
  apply bind_ok in H as (o & Ho & H).
  unfold parse_obj, is_camera in *.
  destruct (node_name obj) as [name|]; [|discriminate]. simpl in Ho.
  destruct (String.eqb name "Sphere") eqn:E1;
    [|destruct (String.eqb name "Plane") eqn:E2;
      [|destruct (String.eqb name "Box") eqn:E3;
        [|rewrite Hcam in Ho;
          destruct (String.eqb name "PointLight"); [|discriminate]]]].
  - apply String.eqb_eq in E1. subst name. inv_ok. simpl in H. inv_ok.
    eexists. split; [reflexivity|].
    unfold object_well_formed. simpl.
    erewrite lambertian_well_formed by eassumption. reflexivity.
  - unfold parse_plane in Ho. inv_ok. simpl in H. inv_ok.
    eexists. split; [reflexivity|].
    unfold object_well_formed. simpl.
    erewrite lambertian_well_formed by eassumption.
    match goal with X : plane_objType _ _ = Ok _ |- _ =>
      destruct (plane_objType_cases _ _ _ X) as [-> | [-> | ->]] end;
      reflexivity.
  - apply String.eqb_eq in E3. subst name. inv_ok. simpl in H. inv_ok.
    eexists. split; [reflexivity|].
    unfold object_well_formed. simpl.
    erewrite lambertian_well_formed by eassumption. reflexivity.
  - inv_ok. simpl in H. inv_ok. eexists. split; reflexivity.
Qed.

Lemma main_loop_well_formed geometries materials objs y y' :
  for_each (loop_body libm_acos geometries materials) objs y = Ok y' ->
  forallb object_well_formed (world y) = true ->
  forallb object_well_formed (world y') = true.
Proof.
  revert y. induction objs as [|obj objs IH]; intros y H Hy.
  - injection H as <-. exact Hy.
  - simpl in H. apply bind_ok in H as (y1 & Hstep & Hrest).
    apply (IH _ Hrest). destruct (is_camera obj) eqn:Hcam.
    + destruct (loop_body_camera _ _ _ _ _ _ Hcam Hstep) as (_ & -> & _).
      exact Hy.
    + destruct (loop_body_emits_well_formed _ _ _ _ _ Hcam Hstep)
        as (w & -> & Hw).
      simpl. rewrite forallb_app, Hy. simpl. rewrite Hw. reflexivity.
Qed.

(** X16: every world object of a converted scene is well formed: its tag
    is Sphere, Box, XYRectangle, XZRectangle or YZRectangle (the input
    names Plane and PointLight never reach the output), it has exactly the
    keys of its kind, and it carries a solid-color material that is
    Lambertian without intensity or DiffuseLight with one. *)
Theorem world_objects_well_formed json_dict out :
  convert_json_to_yaml libm_acos json_dict = Ok out ->
  forallb object_well_formed (world out) = true.
Proof.
  unfold convert_json_to_yaml.
  destruct (not_a_scene json_dict); [discriminate|].
  intros H. inv_ok.
  eapply main_loop_well_formed; [eassumption | reflexivity].
Qed.

End Output.

(** ** How conversions compose *)

Section Composition.

Variable libm_acos : float -> float.

Lemma loop_body_camera_any_state geometries materials y y' obj :
  is_camera obj = true ->
  loop_body libm_acos geometries materials y obj = Ok y' ->
  y' = set_camera y (camera y') /\
  vup (camera y') = vup (camera y) /\
  aspectRatio (camera y') = aspectRatio (camera y) /\
  aperture (camera y') = aperture (camera y) /\
  forall y0,
    vup (camera y0) = vup (camera y) ->
    aspectRatio (camera y0) = aspectRatio (camera y) ->
    aperture (camera y0) = aperture (camera y) ->
    loop_body libm_acos geometries materials y0 obj
    = Ok (set_camera y0 (camera y')).
Proof.
  intros Hcam H. unfold loop_body in *.
  rewrite (parse_obj_camera _ _ _ _ Hcam) in H.
  destruct (matrix_floats obj 12 15) eqn:E1; [|discriminate].
  destruct (matrix_floats obj 8 11) eqn:E2; [|discriminate].
  destruct (scalar_field "fov" (node_fov obj)) eqn:E3; [|discriminate].
  destruct (scalar_field "focus" (node_focus obj)) eqn:E4; [|discriminate].
  simpl in H. injection H as <-. simpl. repeat split.
  intros y0 Ev Ea Ep.
  rewrite (parse_obj_camera _ _ _ _ Hcam), E1, E2, E3, E4. simpl.
  rewrite Ev, Ea, Ep. reflexivity.
Qed.

Lemma for_each_rebase geometries materials objs y y' :
  for_each (loop_body libm_acos geometries materials) objs y = Ok y' ->
  constants y' = constants y /\
  vup (camera y') = vup (camera y) /\
  aspectRatio (camera y') = aspectRatio (camera y) /\
  aperture (camera y') = aperture (camera y) /\
  (existsb is_camera objs = false -> camera y' = camera y) /\
  exists ws, world y' = world y ++ ws /\
    forall y0,
      vup (camera y0) = vup (camera y) ->
      aspectRatio (camera y0) = aspectRatio (camera y) ->
      aperture (camera y0) = aperture (camera y) ->
      for_each (loop_body libm_acos geometries materials) objs y0
      = Ok {| constants := constants y0;
              camera := if existsb is_camera objs then camera y'
                        else camera y0;
              world := world y0 ++ ws |}.
Proof.
  revert y. induction objs as [|obj objs IH]; intros y H.
  - injection H as <-. repeat split. exists []. split.
    + symmetry. apply app_nil_r.
    + intros y0 _ _ _. simpl. rewrite app_nil_r. destruct y0; reflexivity.
  - simpl in H. apply bind_ok in H as (y1 & Hstep & Hrest).
    destruct (IH _ Hrest) as (Hc & Hv & Ha & Hp & Hcam & ws & Hw & Hall).
    clear IH. simpl existsb. destruct (is_camera obj) eqn:Hobj; simpl orb.
    + destruct (loop_body_camera_any_state _ _ _ _ _ Hobj Hstep)
        as (Hy1 & Hv1 & Ha1 & Hp1 & Hany).
      assert (constants y1 = constants y /\ world y1 = world y) as [Hc1 Hw1]
        by (rewrite Hy1; split; reflexivity).
      repeat split; try congruence.
      exists ws. split; [congruence|].
      intros y0 Ev Ea Ep. simpl. rewrite (Hany y0 Ev Ea Ep). simpl.
      rewrite (Hall (set_camera y0 (camera y1))); simpl; try congruence.
      destruct (existsb is_camera objs) eqn:Hex; [reflexivity|].
      rewrite (Hcam eq_refl). reflexivity.
    + destruct (loop_body_not_camera _ _ _ _ _ _ Hobj Hstep)
        as (w & -> & Hany).
      simpl in *. repeat split; try assumption.
      exists (w :: ws). split.
      * rewrite Hw, <- app_assoc. reflexivity.
      * intros y0 Ev Ea Ep. rewrite (Hany y0). simpl.
        rewrite (Hall (world_append y0 w)); simpl; try assumption.
        rewrite <- app_assoc. reflexivity.
Qed.

Lemma convert_with_children json_dict objs :
  convert_json_to_yaml libm_acos (with_children json_dict objs)
  = if not_a_scene json_dict
    then Raise (ValueError "JSON file is not a Three.JS JSON Scene file.")
    else
      let* geoarr := dict_get "geometries" (doc_geometries json_dict) in
      let* geometries := build_index geo_uuid geoarr in
      let* matarr := dict_get "materials" (doc_materials json_dict) in
      let* materials := build_index mat_uuid matarr in
      for_each (loop_body libm_acos geometries materials) objs
        initial_yaml_dict.
Proof.
  unfold convert_json_to_yaml, with_children, not_a_scene. simpl.
  destruct (doc_object json_dict) as [o|]; [|reflexivity]. simpl.
  destruct (obj_type o) as [t|]; [|reflexivity].
  destruct (negb (String.eqb t "Scene")); [reflexivity|].
  destruct (doc_geometries json_dict) as [geoarr|]; [|reflexivity]. simpl.
  destruct (build_index geo_uuid geoarr); [|reflexivity]. simpl.
  destruct (doc_materials json_dict) as [matarr|]; [|reflexivity]. simpl.
  destruct (build_index mat_uuid matarr); reflexivity.
Qed.

(** X17: conversion distributes over the list of children: if a document
    whose children are [objs1 ++ objs2] converts, so do the documents
    with the children [objs1] and with the children [objs2]; the world
    of the whole is the world of the first followed by the world of the
    second, and its camera is that of the second when [objs2] has a
    camera child and that of the first otherwise. *)
Theorem convert_app json_dict objs1 objs2 out :
  convert_json_to_yaml libm_acos (with_children json_dict (objs1 ++ objs2))
  = Ok out ->
  exists out1 out2,
    convert_json_to_yaml libm_acos (with_children json_dict objs1) = Ok out1 /\
    convert_json_to_yaml libm_acos (with_children json_dict objs2) = Ok out2 /\
    world out = world out1 ++ world out2 /\
    camera out = if existsb is_camera objs2 then camera out2 else camera out1.
Proof.
  rewrite !convert_with_children.
  destruct (not_a_scene json_dict); [discriminate|].
  destruct (dict_get "geometries" _) as [geoarr|]; [simpl|discriminate].
  destruct (build_index geo_uuid geoarr) as [geometries|]; [simpl|discriminate].
  destruct (dict_get "materials" _) as [matarr|]; [simpl|discriminate].
  destruct (build_index mat_uuid matarr) as [materials|]; [simpl|discriminate].
  rewrite for_each_app. intros H. apply bind_ok in H as (out1 & H1 & H2).
  destruct (for_each_rebase _ _ _ _ _ H1) as (_ & Hv & Ha & Hp & _).
  destruct (for_each_rebase _ _ _ _ _ H2)
    as (_ & _ & _ & _ & Hcam & ws & Hw & Hall).
  exists out1. eexists. split; [exact H1|]. split.
  - apply Hall; congruence.
  - simpl. split; [exact Hw|].
    destruct (existsb is_camera objs2); [reflexivity|]. apply Hcam. reflexivity.
Qed.

Lemma no_camera_left (objs : list Node) :
  existsb is_camera (List.filter not_camera objs) = false.
Proof.
  induction objs as [|obj objs IH]; [reflexivity|]. simpl.
  unfold not_camera at 1. destruct (is_camera obj) eqn:E; simpl; [exact IH|].
  rewrite E. exact IH.
Qed.

Lemma for_each_without_cameras geometries materials objs y y' :
  for_each (loop_body libm_acos geometries materials) objs y = Ok y' ->
  for_each (loop_body libm_acos geometries materials)
    (List.filter not_camera objs) y
  = Ok (set_camera y' (camera y)).
Proof.
  revert y. induction objs as [|obj objs IH]; intros y H.
  - injection H as <-. destruct y; reflexivity.
  - simpl in H. apply bind_ok in H as (y1 & Hstep & Hrest).
    specialize (IH _ Hrest). simpl. unfold not_camera at 1.
    destruct (is_camera obj) eqn:Hobj; simpl.
    + destruct (loop_body_camera_any_state _ _ _ _ _ Hobj Hstep)
        as (Hy1 & Hv1 & Ha1 & Hp1 & _).
      destruct (for_each_rebase _ _ _ _ _ IH)
        as (Hc & _ & _ & _ & _ & ws & Hw & Hall).
      rewrite (Hall y) by congruence. rewrite no_camera_left.
      unfold set_camera. simpl in *. f_equal.
      rewrite Hy1 in Hc, Hw. simpl in *. f_equal; congruence.
    + destruct (loop_body_not_camera _ _ _ _ _ _ Hobj Hstep) as (w & -> & _).
      rewrite Hstep. simpl. exact IH.
Qed.

(** X18: removing the camera children from a document that converts
    gives a document that converts to the same world, with the default
    camera: the position of the cameras among the children has no effect
    on the world. *)
Theorem convert_without_cameras json_dict objs out :
  convert_json_to_yaml libm_acos (with_children json_dict objs) = Ok out ->
  convert_json_to_yaml libm_acos
    (with_children json_dict (List.filter not_camera objs))
  = Ok (set_camera out default_camera).
Proof.
  rewrite !convert_with_children.
  destruct (not_a_scene json_dict); [discriminate|].
  destruct (dict_get "geometries" _) as [geoarr|]; [simpl|discriminate].
  destruct (build_index geo_uuid geoarr) as [geometries|]; [simpl|discriminate].
  destruct (dict_get "materials" _) as [matarr|]; [simpl|discriminate].
  destruct (build_index mat_uuid matarr) as [materials|]; [simpl|discriminate].
  intros H. apply (for_each_without_cameras _ _ _ _ _ H).
Qed.

(** ** Geometry records of the wrong kind *)

(** X19: the kind of a geometry record is not checked, only its keys are:
    a Sphere node whose geometry has no radius (a plane or box geometry)
    raises [KeyError('radius')], and a Plane or Box node whose geometry
    has no width (a sphere geometry) raises [KeyError('width')]. *)
Theorem geometry_of_wrong_kind geometries materials y obj name id g key :
  node_name obj = Some name -> is_shape name = true ->
  reaches_geometry_lookup name obj = true ->
  node_geometry obj = Some id -> geometries !! id = Some g ->
  (name = "Sphere"%string /\ geo_radius g = None /\ key = "radius"%string) \/
  (name <> "Sphere"%string /\ geo_width g = None /\ key = "width"%string) ->
  loop_body libm_acos geometries materials y obj = Raise (KeyError key).
Proof.
  intros Hname Hshape Hreach Hid Hg Hkind.
  unfold loop_body, parse_obj, parse_plane, geometry_param, index_get.
  rewrite Hname, Hid. unfold reaches_geometry_lookup in Hreach.
  destruct (is_shape_cases _ Hshape) as [-> | [-> | ->]];
    destruct Hkind as [(Hn & Hk & ->) | (Hn & Hk & ->)];
    try discriminate; try congruence; simpl in *.
  - destruct (matrix_floats obj 12 15); [|discriminate].
    simpl. rewrite Hg. simpl. rewrite Hk. reflexivity.
  - destruct (node_matrix obj); [|discriminate].
    simpl. rewrite Hg. simpl. rewrite Hk. reflexivity.
  - destruct (matrix_floats obj 12 15); [|discriminate].
    simpl. rewrite Hg. simpl. rewrite Hk. reflexivity.
Qed.

End Composition.

(** ** The further properties at sample data *)

(** X1 at a list with a duplicate uuid: the later record is found. *)
Lemma build_index_last_wins_example :
  ({["geo-1"%string := later_geometry]} : gmap string Geometry) !! "geo-1"%string
  = last (List.filter (has_uuid geo_uuid "geo-1")
            [sample_geometry; later_geometry]).
Proof.
  apply (build_index_last_wins geo_uuid [sample_geometry; later_geometry]).
  vm_compute. reflexivity.
Defined.

(** X3 at a node named sphere, in lower case. *)
Lemma unknown_tag_raises_example :
  loop_body acos_axis ∅ ∅ initial_yaml_dict
    (node_named "sphere" short_matrix "geo-1")
  = Raise (ValueError "Unknown object type.").
Proof.
  apply (unknown_tag_raises acos_axis ∅ ∅ initial_yaml_dict _ "sphere");
    reflexivity.
Defined.

(** X4 at [sample_scene]. *)
Lemma constants_are_fixed_example :
  constants sample_output = default_constants /\
  vup (camera sample_output) = [0%float; 1%float; 0%float] /\
  aspectRatio (camera sample_output) = 1%float /\
  aperture (camera sample_output) = 0.1%float.
Proof.
  apply (constants_are_fixed acos_axis sample_scene).
  vm_compute. reflexivity.
Defined.

(** X5 at a scene of one light and no [geometries] list, and at a scene
    without [materials]. *)
Lemma missing_top_level_key_example :
  convert_json_to_yaml acos_axis
    {| doc_object := Some {| obj_type := Some "Scene"%string;
                             obj_children := Some [sample_light] |};
       doc_geometries := None; doc_materials := Some [] |}
  = Raise (KeyError "geometries") /\
  convert_json_to_yaml acos_axis
    {| doc_object := Some {| obj_type := Some "Scene"%string;
                             obj_children := Some [sample_light] |};
       doc_geometries := Some []; doc_materials := None |}
  = Raise (KeyError "materials").
Proof.
  split.
  - apply missing_top_level_key; [reflexivity|]. left. split; reflexivity.
  - apply missing_top_level_key; [reflexivity|]. right. left.
    exists []. repeat split; reflexivity.
Defined.

(** X6 at the sample indexes. *)
Lemma empty_scene_is_default_example :
  convert_json_to_yaml acos_axis (scene_of []) = Ok initial_yaml_dict.
Proof.
  eapply (empty_scene_is_default acos_axis (scene_of [])); reflexivity.
Defined.

(** X7 at a scene whose second child has an unknown geometry. *)
Lemma first_failing_child_example :
  convert_json_to_yaml acos_axis
    (scene_of ([sample_sphere] ++ dangling_sphere :: [sample_light]))
  = Raise (KeyError "geo-9").
Proof.
  eapply (first_failing_child acos_axis _ _ _ _ _ _ [sample_sphere]
            dangling_sphere [sample_light]);
    try reflexivity; vm_compute; reflexivity.
Defined.

(** X8 at [sample_box]. *)
Lemma box_object_example :
  loop_body acos_axis {["geo-1"%string := sample_geometry]}
    {["mat-1"%string := sample_material]} initial_yaml_dict sample_box
  = let* ms := lambertian {["mat-1"%string := sample_material]} sample_box in
    Ok (world_append initial_yaml_dict
          {| objType := "Box"; center := None; radius := None;
             position := Some [NFloat 1; NFloat 2; NFloat 3];
             width := Some 4%float; height := Some 3%float;
             depth := Some 1%float; material := Some ms |}).
Proof.
  apply (box_object acos_axis _ _ _ sample_box
           (translation (NInt 1) (NInt 2) (NInt 3))
           (NInt 1) (NInt 2) (NInt 3) 1%float 2%float 3%float
           "geo-1"%string sample_geometry
           (NInt 4) (NInt 3) (NInt 1) 4%float 3%float 1%float);
    vm_compute; reflexivity.
Defined.

(** X9 at a sphere with a matrix of 13 numbers: one coordinate. *)
Lemma sphere_center_is_clipped_example :
  exists c,
    center {| objType := "Sphere"; center := Some [7%float];
              radius := Some 2%float; position := None; width := None;
              height := None; depth := None; material := None |} = Some c /\
    list_comp float_of_num (py_slice 12 15 short_matrix) = Ok c /\
    length c = Nat.min 3 (length short_matrix - 12).
Proof.
  apply (sphere_center_is_clipped acos_axis
           {["geo-1"%string := sample_geometry]} initial_yaml_dict
           (node_named "Sphere" short_matrix "geo-1") short_matrix);
    vm_compute; reflexivity.
Defined.

(** X10 at a plane with a matrix of 13 numbers. *)
Lemma plane_needs_16_numbers_example :
  loop_body acos_axis {["geo-1"%string := sample_geometry]}
    {["mat-1"%string := sample_material]} initial_yaml_dict
    (node_named "Plane" short_matrix "geo-1")
  = Raise (ValueError "cannot reshape array of size 13 into shape (4,4)").
Proof.
  apply (plane_needs_16_numbers acos_axis _ _ _ _ short_matrix
           [1; 0; 0; 0; 0; 1; 0; 0; 0; 0; 1; 0; 7]%float 4%float 3%float);
    try (vm_compute; reflexivity).
  simpl. lia.
Defined.

(** X11 at an unrotated plane: an XYRectangle whose position keeps the
    integers of the matrix. *)
Lemma axis_aligned_planes_example :
  loop_body acos_axis {["geo-1"%string := sample_geometry]}
    {["mat-1"%string := sample_material]} initial_yaml_dict flat_plane
  = Ok (world_append initial_yaml_dict
          {| objType := "XYRectangle"; center := None; radius := None;
             position := Some [NInt 1; NInt 2; NInt 3];
             width := Some 4%float; height := Some 3%float; depth := None;
             material := Some
               {| matType := "Lambertian"; texType := "SolidColor";
                  texture :=
                    {| albedo := [1%float; (128 / 255)%float; 0%float] |};
                  intensity := None |} |}).
Proof.
  apply (axis_aligned_planes acos_axis _ _ _ flat_plane
           (translation (NInt 1) (NInt 2) (NInt 3))
           [1; 0; 0; 0; 0; 1; 0; 0; 0; 0; 1; 0; 1; 2; 3; 1]%float
           4%float 3%float 1%float 1%float);
    try (vm_compute; reflexivity); left; reflexivity.
Defined.

(** X12 at the color 0xff8000. *)
Lemma six_digit_color_example :
  rgb_of_color 16744448 = Ok [255; 128; 0] /\
  exists fr fg fb,
    albedo_of_color 16744448 = Ok [fr; fg; fb] /\
    channel 255 = Ok fr /\ channel 128 = Ok fg /\ channel 0 = Ok fb /\
    Forall (fun f => PrimFloat.leb 0 f && PrimFloat.leb f 1 = true) [fr; fg; fb].
Proof. apply (six_digit_color 16744448). lia. Defined.

(** X13 at pure blue, 0x0000ff. *)
Lemma short_color_raises_example :
  albedo_of_color 255 = Raise (ValueError "range() arg 3 must not be zero").
Proof. apply (short_color_raises 255). lia. Defined.

(** X14 at pure green, 0x00ff00: four digits, four channels. *)
Lemma mid_color_is_split_into_digits_example :
  rgb_of_color 65280 = Ok [15; 15; 0; 0].
Proof. apply (mid_color_is_split_into_digits 65280). lia. Defined.

(** X15 at the color -1. *)
Lemma negative_color_raises_example :
  exists msg, albedo_of_color (-1) = Raise (ValueError msg).
Proof. apply (negative_color_raises (-1)). lia. Defined.

(** X16 at [sample_scene]. *)
Lemma world_objects_well_formed_example :
  forallb object_well_formed (world sample_output) = true.
Proof.
  apply (world_objects_well_formed acos_axis sample_scene).
  vm_compute. reflexivity.
Defined.

(** X17 at the sample children, split in the middle. *)
Lemma convert_app_example :
  exists out1 out2,
    convert_json_to_yaml acos_axis
      (with_children sample_scene [sample_camera 5 50; sample_sphere])
    = Ok out1 /\
    convert_json_to_yaml acos_axis
      (with_children sample_scene [sample_light; sample_camera 8 40])
    = Ok out2 /\
    world sample_output = world out1 ++ world out2 /\
    camera sample_output = camera out2.
Proof.
  apply (convert_app acos_axis sample_scene
           [sample_camera 5 50; sample_sphere]
           [sample_light; sample_camera 8 40] sample_output).
  vm_compute. reflexivity.
Defined.

(** X18 at [sample_scene]. *)
Lemma convert_without_cameras_example :
  convert_json_to_yaml acos_axis
    (with_children sample_scene [sample_sphere; sample_light])
  = Ok (set_camera sample_output default_camera).
Proof.
  apply (convert_without_cameras acos_axis sample_scene sample_children).
  vm_compute. reflexivity.
Defined.

(** X19 at a sphere node that references the plane geometry, and at a
    box node that references a geometry without width. *)
Lemma geometry_of_wrong_kind_example :
  loop_body acos_axis {["geo-2"%string := plane_geometry]} ∅
    initial_yaml_dict
    (node_named "Sphere" (translation (NInt 0) (NInt 0) (NInt 0)) "geo-2")
  = Raise (KeyError "radius") /\
  loop_body acos_axis {["geo-1"%string := later_geometry]} ∅
    initial_yaml_dict
    (node_named "Box" (translation (NInt 0) (NInt 0) (NInt 0)) "geo-1")
  = Raise (KeyError "width").
Proof.
  split.
  - apply (geometry_of_wrong_kind acos_axis _ _ _ _ "Sphere" "geo-2"
             plane_geometry); try reflexivity.
    left. repeat split; reflexivity.
  - apply (geometry_of_wrong_kind acos_axis _ _ _ _ "Box" "geo-1"
             later_geometry); try reflexivity.
    right. repeat split; [discriminate | reflexivity..].
Defined.

(** ** Keys a node must have *)

Section NodeKeys.

Variable libm_acos : float -> float.

(** X20: each of the five accepted kinds reads [obj["matrix"]] before
    anything else: a node with a known name and no matrix raises
    [KeyError('matrix')], whatever its other keys and the indexes are. *)
Theorem node_without_matrix geometries materials y obj name :
  node_name obj = Some name -> known_tag name = true ->
  node_matrix obj = None ->
  loop_body libm_acos geometries materials y obj = Raise (KeyError "matrix").
Proof.
  intros Hname Hk Hm. unfold known_tag in Hk.
  apply orb_true_iff in Hk as [Hk|Hk]; [apply orb_true_iff in Hk as [Hk|Hk]|].
  - destruct (is_shape_cases _ Hk) as [-> | [-> | ->]];
      unfold loop_body, parse_obj, parse_plane, matrix_floats;
      rewrite Hname, Hm; reflexivity.
  - apply String.eqb_eq in Hk. subst name.
    unfold loop_body, parse_obj, matrix_floats. rewrite Hname, Hm. reflexivity.
  - apply String.eqb_eq in Hk. subst name.
    unfold loop_body, parse_obj, matrix_floats. rewrite Hname, Hm. reflexivity.
Qed.

(** X21: a PerspectiveCamera node overwrites four fields of the camera
    block and appends nothing: lookFrom becomes the float casts of the
    matrix entries 12, 13, 14, lookAt those of the entries 8, 9, 10 (a
    row of the matrix, not a point at the focus distance), vfov and
    focusDistance the float casts of [fov] and [focus]; vup, aspectRatio,
    aperture, the constants and the world stay as they are. The node's
    geometry and material keys and the two indexes are not read. *)
Theorem camera_node_updates_camera geometries materials y obj m
    v8 v9 v10 v12 v13 v14 a0 a1 a2 c0 c1 c2 fovv focusv fov focus :
  node_name obj = Some "PerspectiveCamera"%string ->
  node_matrix obj = Some m ->
  m !! 8%nat = Some v8 -> m !! 9%nat = Some v9 -> m !! 10%nat = Some v10 ->
  m !! 12%nat = Some v12 -> m !! 13%nat = Some v13 -> m !! 14%nat = Some v14 ->
  float_of_num v8 = Ok a0 -> float_of_num v9 = Ok a1 ->
  float_of_num v10 = Ok a2 ->
  float_of_num v12 = Ok c0 -> float_of_num v13 = Ok c1 ->
  float_of_num v14 = Ok c2 ->
  node_fov obj = Some fovv -> float_of_num fovv = Ok fov ->
  node_focus obj = Some focusv -> float_of_num focusv = Ok focus ->
  loop_body libm_acos geometries materials y obj
  = Ok {| constants := constants y;
          camera :=
            {| lookFrom := [c0; c1; c2]; lookAt := [a0; a1; a2];
               vup := vup (camera y); vfov := fov;
               aspectRatio := aspectRatio (camera y);
               aperture := aperture (camera y); focusDistance := focus |};
          world := world y |}.
Proof.
  intros Hname Hm H8 H9 H10 H12 H13 H14 Ha0 Ha1 Ha2 Hc0 Hc1 Hc2
    Hfv Hf Hcv Hc.
  assert (is_camera obj = true) as Hcam
    by (unfold is_camera; rewrite Hname; reflexivity).
  unfold loop_body. rewrite (parse_obj_camera _ _ _ _ Hcam).
  unfold matrix_floats, scalar_field. rewrite Hm, Hfv, Hcv. simpl.
  rewrite (py_slice_12_15 _ _ _ _ H12 H13 H14).
  assert (py_slice 8 11 m = [v8; v9; v10]) as ->.
  { clear - H8 H9 H10.
    do 11 (destruct m as [|? m]; [discriminate|]).
    injection H8 as ->. injection H9 as ->. injection H10 as ->.
    reflexivity. }
  simpl. rewrite Hc0, Hc1, Hc2, Ha0, Ha1, Ha2. simpl.
  rewrite Hf, Hc. reflexivity.
Qed.

End NodeKeys.

(** X20 at a light without a matrix. *)
Lemma node_without_matrix_example :
  loop_body acos_axis ∅ ∅ initial_yaml_dict
    {| node_name := Some "PointLight"%string; node_matrix := None;
       node_geometry := None; node_material := None; node_fov := None;
       node_focus := None; node_intensity := Some (NInt 1) |}
  = Raise (KeyError "matrix").
Proof.
  apply (node_without_matrix acos_axis ∅ ∅ initial_yaml_dict _ "PointLight");
    reflexivity.
Defined.

(** X21 at the second camera of the sample scene. *)
Lemma camera_node_updates_camera_example :
  loop_body acos_axis ∅ ∅ initial_yaml_dict (sample_camera 8 40)
  = Ok {| constants := default_constants;
          camera :=
            {| lookFrom := [0%float; 0%float; 8%float];
               lookAt := [0%float; 0%float; 1%float];
               vup := [0%float; 1%float; 0%float]; vfov := 40%float;
               aspectRatio := 1%float; aperture := 0.1%float;
               focusDistance := 10%float |};
          world := [] |}.
Proof.
  apply (camera_node_updates_camera acos_axis ∅ ∅ initial_yaml_dict
           (sample_camera 8 40) (translation (NInt 0) (NInt 0) (NInt 8))
           (NInt 0) (NInt 0) (NInt 1) (NInt 0) (NInt 0) (NInt 8)
           0%float 0%float 1%float 0%float 0%float 8%float
           (NInt 40) (NInt 10) 40%float 10%float);
    vm_compute; reflexivity.
Defined.

(** A Plane matrix is not cast as a whole: an integer beyond the doubles
    at an offset that is not read by [math.acos] is kept, at offset 5 it
    is the overflow of the cast, and the length is checked first. *)
Example plane_matrix_is_not_cast :
  is_ok (loop_body acos_axis {["geo-1"%string := sample_geometry]}
           {["mat-1"%string := sample_material]} initial_yaml_dict
           (node_named "Plane"
              [NInt 1; NInt 0; NInt 0; NInt (2 ^ 1100);
               NInt 0; NInt 1; NInt 0; NInt 0;
               NInt 0; NInt 0; NInt 1; NInt 0;
               NInt 0; NInt 0; NInt 0; NInt 1] "geo-1")) = true /\
  loop_body acos_axis {["geo-1"%string := sample_geometry]}
    {["mat-1"%string := sample_material]} initial_yaml_dict
    (node_named "Plane"
       [NInt 1; NInt 0; NInt 0; NInt 0;
        NInt 0; NInt (2 ^ 1100); NInt 0; NInt 0;
        NInt 0; NInt 0; NInt 1; NInt 0;
        NInt 0; NInt 0; NInt 0; NInt 1] "geo-1")
  = Raise (OverflowError "int too large to convert to float") /\
  loop_body acos_axis {["geo-1"%string := sample_geometry]}
    {["mat-1"%string := sample_material]} initial_yaml_dict
    (node_named "Plane" [NInt (2 ^ 1100); NInt 0; NInt 0] "geo-1")
  = Raise (ValueError "cannot reshape array of size 3 into shape (4,4)").
Proof. repeat split; vm_compute; reflexivity. Qed.
